(** * Variant-analysis monitoring and export: a shallow embedding

    The development follows the TypeScript sources of the extension.
    Definitions:
    - [QueryLanguage]: the query-language enumeration;
    - [SharedTypes]: the records of [shared/variant-analysis] that the
      export code reads;
    - [Word]: [pluralize] of [pure/word];
    - [Effects]: the trace-and-exception monad in which the asynchronous
      code is written;
    - [Commands]: [registerCommandWithErrorHandling] of
      [common/vscode/commands.ts];
    - [MarkdownGeneration], [FilterSort], [JsDate]: the types of the
      renderer, the filter/sort criteria, and [Date.prototype.toISOString];
    - [ExportResults]: the export of variant-analysis results
      (determineExportFormat, the selection of repositories, the lazy
      result sequence, the description string, the local Markdown writer);
    - [Monitor]: the monitor loop, differ and dispatcher;
    - [Wording], [Traces]: the notions in which the theorems are stated;
    - [Fixtures], [MonitorFixtures]: concrete collaborators.
    Theorems follow, one module per subject.

    Integers that the TypeScript code holds in a [number] (ids, counts)
    are modelled as [N]: they are non-negative and far below 2^53, where
    floating-point addition is exact. *)

From Stdlib Require Import NArith ZArith Lia Ascii String List.
From stdpp Require Import base option list gmap sets strings pretty.

Local Open Scope string_scope.
Local Open Scope list_scope.
Local Open Scope N_scope.

(** ** The query languages ([QueryLanguage], a string enum) *)

Module QueryLanguage.

Inductive t := CSharp | Cpp | Go | Java | Javascript | Python | Ruby | Swift.

(** The value of each member, which is what a template literal prints. *)
Definition value (l : t) : string :=
  match l with
  | CSharp => "csharp"
  | Cpp => "cpp"
  | Go => "go"
  | Java => "java"
  | Javascript => "javascript"
  | Python => "python"
  | Ruby => "ruby"
  | Swift => "swift"
  end.

End QueryLanguage.

(** ** Records shared by the monitor and the export pipeline *)

Module SharedTypes.

(** Modelled from the spec: the declarations of [shared/variant-analysis]
    are not among the sources.  The records below carry the fields that
    the export code reads ([id], [query.name], [query.language],
    [scannedRepos], [repository.id], [repository.fullName],
    [resultCount], [repositoryId], [downloadStatus]) together with the
    fields the data model of the specification lists (overall status,
    optional failure reason, per-repository analysis status, star count,
    last update, artifact size). *)
Inductive VariantAnalysisStatus :=
| InProgress | Succeeded | Failed | Canceled.

Inductive VariantAnalysisRepoStatus :=
| RepoPending | RepoInProgress | RepoSucceeded | RepoFailed.

Inductive VariantAnalysisScannedRepositoryDownloadStatus :=
| DownloadPending | DownloadInProgress | DownloadSucceeded | DownloadFailed.

Record Query := {
  name : string;
  language : QueryLanguage.t;
}.

Record Repository := {
  id : N;
  fullName : string;
  stargazersCount : N;
  updatedAt : option string;
}.

Record VariantAnalysisScannedRepository := {
  repository : Repository;
  analysisStatus : VariantAnalysisRepoStatus;
  resultCount : option N;
  artifactSizeInBytes : option N;
}.

Record VariantAnalysisScannedRepositoryState := {
  repositoryId : N;
  downloadStatus : VariantAnalysisScannedRepositoryDownloadStatus;
}.

(** The typed failure classification [FailureReason] is left abstract. *)
Record VariantAnalysis (FailureReason : Type) := {
  va_id : N;
  query : Query;
  status : VariantAnalysisStatus;
  failureReason : option FailureReason;
  scannedRepos : option (list VariantAnalysisScannedRepository);
}.
Arguments va_id {_} _.
Arguments query {_} _.
Arguments status {_} _.
Arguments failureReason {_} _.
Arguments scannedRepos {_} _.

#[global] Instance download_status_eq_dec :
  EqDecision VariantAnalysisScannedRepositoryDownloadStatus.
Proof. solve_decision. Defined.

#[global] Instance repo_status_eq_dec : EqDecision VariantAnalysisRepoStatus.
Proof. solve_decision. Defined.

#[global] Instance status_eq_dec : EqDecision VariantAnalysisStatus.
Proof. solve_decision. Defined.

End SharedTypes.

(** ** [pure/word] *)

Module Word.

(** Modelled from the spec: [pluralize] of [pure/word] is imported by the
    export code but is not among the sources.  The specification gives
    its output the shape [<N> results]: the count in decimal, a space,
    and the singular word exactly when the count is one. *)
Definition pluralize (numItems : N) (singular plural : string) : string :=
  pretty numItems +:+ " " +:+ (if decide (numItems = 1) then singular else plural).

End Word.

(** ** Effects: a trace of calls to the host, and exceptions

    An [async] function is a computation that reads the history of the
    calls made so far, appends its own, and either returns or throws.
    Awaited calls run one after the other, so the history is a list in
    the order of the calls.  What the host answers is not decided by the
    code: answers come from oracles (records of functions) that the
    definitions take as arguments, the way the TypeScript functions take
    their collaborators. *)

Module Effects.

(** What a [catch] clause can receive.  A [UserCancellationException]
    carries its message and its [silent] flag (false when the constructor
    is given one argument); every other thrown value is kept opaque and
    identified by a description. *)
Inductive Thrown :=
| UserCancellationException (message : string) (silent : bool)
| OtherError (description : string).

(** Calls to the host that the code makes, with their arguments. *)
Inductive Event :=
| Log (message : string)
| ShowAndLogWarningMessage (message : string)
| ShowAndLogExceptionWithTelemetry (message fullMessage command : string)
| SendCommandUsage (commandId : string) (executionTime : Z) (error : option Thrown)
| Progress (maxStep step : N) (message : string)
| ShowQuickPick (labels : list string) (placeHolder : string)
| LoadResults (variantAnalysisId : N) (repoFullName : string) (skipCacheStore : bool)
| WithProgress (title : string) (cancellable : bool)
| EnsureDir (path : string)
| WriteFile (path content encoding : string)
| CreateGist (description : string) (files : gmap string string)
| ShowInformationMessageWithAction (message action : string)
| OpenTextDocument (path : string)
| ShowTextDocument (path : string)
| ExecuteCommand (command argument : string).

Inductive Outcome (A : Type) :=
| Return (a : A)
| Throw (e : Thrown).
Arguments Return {A} a.
Arguments Throw {A} e.

Definition M (A : Type) : Type := list Event -> Outcome A * list Event.

Definition ret {A} (a : A) : M A := fun h => (Return a, h).

Definition throw {A} (e : Thrown) : M A := fun h => (Throw e, h).

Definition bind {A B} (m : M A) (k : A -> M B) : M B :=
  fun h =>
    match m h with
    | (Return a, h') => k a h'
    | (Throw e, h') => (Throw e, h')
    end.

(** A call whose answer is not used. *)
Definition emit (e : Event) : M unit := fun h => (Return tt, h ++ [e]).

(** A call whose answer [answer] comes from an oracle: the call is
    recorded, and a rejected promise becomes a thrown exception. *)
Definition call {A} (e : Event) (answer : Outcome A) : M A :=
  fun h => (answer, h ++ [e]).

(** Reading a value that changes with time (a clock, a cancellation
    token): the value is a function of the history. *)
Definition observe {A} (f : list Event -> A) : M A := fun h => (Return (f h), h).

(** [try { m } catch (e) { handler e }] *)
Definition tryCatch {A} (m : M A) (handler : Thrown -> M A) : M A :=
  fun h =>
    match m h with
    | (Return a, h') => (Return a, h')
    | (Throw e, h') => handler e h'
    end.

Declare Scope effect_scope.
Delimit Scope effect_scope with eff.
Notation "x <- m ;; k" := (bind m (fun x => k))
  (at level 100, m at next level, right associativity) : effect_scope.
Notation "m ;;; k" := (bind m (fun _ => k))
  (at level 100, right associativity) : effect_scope.

(** A cancellation token: whether cancellation has been requested by the
    time of the given history. *)
Record CancellationToken := {
  isCancellationRequested : list Event -> bool;
}.

End Effects.

(** ** [common/vscode/commands.ts] *)

Module Commands.
Import Effects.

(** The value that the tagged template [redactableError] builds; the
    code reads its [fullMessage]. *)
Record RedactableError := {
  fullMessage : string;
}.

(** The helpers that [commands.ts] imports from [pure/helpers-pure] and
    [pure/errors].  They are pure and are not among the sources, so they
    are taken as parameters.  [redactableError error first commandId]
    stands for the tagged template
    [redactableError(error)`${first} (${commandId})`]. *)
Record Helpers := {
  asError : Thrown -> Thrown;
  getErrorMessage : Thrown -> string;
  getErrorStack : Thrown -> string;
  redactableError : Thrown -> string + Thrown -> string -> RedactableError;
}.

(** What the wrapper reads from its surroundings: the clock ([Date.now()])
    and whether the optional telemetry listener is defined. *)
Record Host := {
  now : list Event -> Z;
  telemetryListener : bool;
}.

Definition newline : string := String (ascii_of_nat 10) "".

(** [getErrorMessage(e) || e]: the message when it is a non-empty string,
    the thrown value itself otherwise. *)
Definition messageOrValue (hp : Helpers) (e : Thrown) : string + Thrown :=
  let m := getErrorMessage hp e in
  if decide (m = "") then inr e else inl m.

(** The [catch] block.  It returns the value assigned to the local
    variable [error], which the [finally] block reads. *)
Definition handleError (hp : Helpers) (commandId : string) (e : Thrown) : M Thrown :=
  let error := asError hp e in
  let errorMessage := redactableError hp error (messageOrValue hp e) commandId in
  let errorStack := getErrorStack hp e in
  bind
    match e with
    | UserCancellationException _ silent =>
        (* User has cancelled this action manually *)
        if silent then emit (Log (fullMessage errorMessage))
        else emit (ShowAndLogWarningMessage (fullMessage errorMessage))
    | OtherError _ =>
        (* Include the full stack in the error log only. *)
        let fullMessage' :=
          if decide (errorStack = "") then fullMessage errorMessage
          else fullMessage errorMessage +:+ newline +:+ errorStack in
        emit (ShowAndLogExceptionWithTelemetry
                (fullMessage errorMessage) fullMessage' commandId)
    end
    (fun _ => ret error).

(** The handler that [registerCommandWithErrorHandling] registers for
    [commandId], applied to the arguments of one invocation ([task] is
    the task applied to them).  The result is [Some v] when the task
    returns [v] and [None] for [undefined].  The [catch] block cannot
    throw, so the [finally] block is sequenced after it. *)
Definition registerCommandWithErrorHandling {A}
    (hp : Helpers) (host : Host) (commandId : string) (task : M A)
    : M (option A) :=
  (startTime <- observe (now host) ;;
   r <- tryCatch
          (v <- task ;; ret (Some v, None))
          (fun e => error <- handleError hp commandId e ;; ret (None, Some error)) ;;
   endTime <- observe (now host) ;;
   let executionTime := (endTime - startTime)%Z in
   (if telemetryListener host
    then emit (SendCommandUsage commandId executionTime (snd r))
    else ret tt) ;;;
   ret (fst r))%eff.

End Commands.

(** ** [markdown-generation]: the types of the renderer *)

Module MarkdownGeneration.

(** Modelled from the spec: the declarations of [markdown-generation] are
    not among the sources.  A rendered file is a name and content lines;
    a summary carries the (optional) result count that the description
    string adds up. *)
Record MarkdownFile := {
  fileName : string;
  content : list string;
}.

Record RepositorySummary := {
  summaryFileName : string;
  resultCount : option N;
}.

End MarkdownGeneration.

(** ** [pure/variant-analysis-filter-sort]: the criteria *)

Module FilterSort.

(** The four sort keys that the [RepositoriesSort] drop-down offers. *)
Inductive SortKey := Name | ResultsCount | Stars | LastUpdated.

(** Modelled from the spec: the declaration of
    [RepositoriesFilterSortStateWithIds] is not among the sources.  The
    criteria are a configuration object holding the filter text, the sort
    key and, optionally, an explicit selection of repository ids. *)
Record RepositoriesFilterSortStateWithIds := {
  searchValue : string;
  sortKey : SortKey;
  repositoryIds : option (list N);
}.

(** The values of the options of [RepositoriesSort], in the order of the
    drop-down. *)
Definition RepositoriesSort_options : list (SortKey * string) :=
  [ (Name, "Name"); (ResultsCount, "Results"); (Stars, "Stars");
    (LastUpdated, "Last updated") ].

End FilterSort.

(** ** The UTC date that [new Date()] returns, and [toISOString] *)

Module JsDate.

(** The UTC calendar fields of a time value. *)
Record Date := {
  year : Z;
  month : N;
  day : N;
  hours : N;
  minutes : N;
  seconds : N;
  milliseconds : N;
}.

Fixpoint repeat0 (k : nat) : string :=
  match k with
  | O => ""
  | S k' => String "0"%char (repeat0 k')
  end.

(** [s.padStart(width, "0")] *)
Definition padStart (width : nat) (s : string) : string :=
  repeat0 (width - String.length s) +:+ s.

(** The year of the ISO format: four digits from 0 to 9999, otherwise a
    sign and six digits (the expanded years of ECMAScript). *)
Definition isoYear (y : Z) : string :=
  if decide (0 <= y <= 9999)%Z then padStart 4 (pretty (Z.to_N y))
  else if decide (0 <= y)%Z then "+" +:+ padStart 6 (pretty (Z.to_N y))
  else "-" +:+ padStart 6 (pretty (Z.to_N (- y))).

Definition pad2 (n : N) : string := padStart 2 (pretty n).
Definition pad3 (n : N) : string := padStart 3 (pretty n).

(** [Date.prototype.toISOString]: [YYYY-MM-DDTHH:mm:ss.sssZ]. *)
Definition toISOString (d : Date) : string :=
  isoYear (year d) +:+ "-" +:+ pad2 (month d) +:+ "-" +:+ pad2 (day d)
  +:+ "T" +:+ pad2 (hours d) +:+ ":" +:+ pad2 (minutes d) +:+ ":"
  +:+ pad2 (seconds d) +:+ "." +:+ pad3 (milliseconds d) +:+ "Z".

Definition isDigit (c : ascii) : bool :=
  let n := N_of_ascii c in (48 <=? n) && (n <=? 57).

(** [s.replace(/[-:]/g, "")]: every [-] and [:] is removed. *)
Fixpoint removeDashesAndColons (s : string) : string :=
  match s with
  | "" => ""
  | String c rest =>
      if (Ascii.eqb c "-" || Ascii.eqb c ":")%bool
      then removeDashesAndColons rest
      else String c (removeDashesAndColons rest)
  end.

(** Whether [s] is matched by [\d*Z$]: digits up to a final [Z]. *)
Fixpoint digitsThenZ (s : string) : bool :=
  match s with
  | "" => false
  | String c rest =>
      if isDigit c then digitsThenZ rest
      else Ascii.eqb c "Z" && String.eqb rest ""
  end.

(** [s.replace(/\.\d+Z$/, "Z")]: the leftmost dot that is followed by one
    or more digits and a [Z] ending the string is replaced, with what
    follows it, by [Z]; without a match the string is unchanged. *)
Fixpoint replaceFraction (s : string) : string :=
  match s with
  | "" => ""
  | String c rest =>
      if Ascii.eqb c "." &&
         match rest with
         | String d rest' => isDigit d && digitsThenZ rest'
         | "" => false
         end
      then "Z"
      else String c (replaceFraction rest)
  end.

End JsDate.

(** ** The export of variant-analysis results *)

Module ExportResults.
Import Effects SharedTypes.

Definition MAX_VARIANT_ANALYSIS_EXPORT_PROGRESS_STEPS : N := 2.

Inductive ExportFormat := gist | local.

(** An object handed to the quick pick.  [itemRef] is the identity of the
    object, which is what [===] compares. *)
Record QuickPickItem := {
  itemRef : nat;
  label : string;
}.

Definition gistOption : QuickPickItem :=
  {| itemRef := 0; label := "$(ports-open-browser-icon) Create Gist (GitHub)" |}.

Definition localMarkdownOption : QuickPickItem :=
  {| itemRef := 1; label := "$(markdown) Save as markdown" |}.

(** An [AsyncIterable]: a suspended computation ([iter_state]) and what
    one call of [next()] does from it, returning the next item and the
    new suspended state, or nothing when the sequence has ended. *)
Record AsyncIterable (T : Type) := {
  iter_state : Type;
  iter_start : iter_state;
  iter_next : iter_state -> M (option (T * iter_state));
}.
Arguments iter_state {T} _.
Arguments iter_start {T} _.
Arguments iter_next {T} _ _.

Section Pipeline.

(** The decoded result of one repository, the credentials and the failure
    classification are opaque to the export code. *)
Context {ScannedRepositoryResult Credentials FailureReason : Type}.

Local Abbreviation Job := (VariantAnalysis FailureReason).
Local Abbreviation Item := (VariantAnalysisScannedRepository * ScannedRepositoryResult)%type.

(** The methods of [VariantAnalysisManager] that the export calls.  The
    answers of the asynchronous ones are oracles. *)
Record VariantAnalysisManager := {
  getVariantAnalysis : N -> option Job;
  getRepoStates : N -> list VariantAnalysisScannedRepositoryState;
  loadResults : N -> string -> bool -> Outcome ScannedRepositoryResult;
  getVariantAnalysisStorageLocation : N -> string;
}.

(** What the module imports and does not define: the quick pick, the
    progress notification's token, the clock, [path.join], [fs-extra],
    the Gist client, and the two functions of this repository that are
    not among the sources, [filterAndSortRepositoriesWithResults] and
    [generateVariantAnalysisMarkdown], taken as parameters. *)
Record Env := {
  showQuickPick : list QuickPickItem -> option QuickPickItem;
  token : CancellationToken;
  newDate : list Event -> JsDate.Date;
  join : list string -> string;
  ensureDir : string -> Outcome unit;
  writeFile : string -> string -> string -> Outcome unit;
  createGist : Credentials -> string -> gmap string string -> Outcome (option string);
  filterAndSortRepositoriesWithResults :
    option (list VariantAnalysisScannedRepository) ->
    option FilterSort.RepositoriesFilterSortStateWithIds ->
    option (list VariantAnalysisScannedRepository);
  generateVariantAnalysisMarkdown :
    Job -> AsyncIterable Item -> nat -> ExportFormat ->
    M (list MarkdownGeneration.MarkdownFile *
       list MarkdownGeneration.RepositorySummary);
}.

(** The [progress] callback. *)
Definition progress (maxStep step : N) (message : string) : M unit :=
  emit (Progress maxStep step message).

(** [if (token.isCancellationRequested) throw new UserCancellationException("Cancelled")] *)
Definition throwIfCancelled (tok : CancellationToken) : M unit :=
  (cancelled <- observe (isCancellationRequested tok) ;;
   if (cancelled : bool)
   then throw (UserCancellationException "Cancelled" false)
   else ret tt)%eff.

(** Modelled from the spec: [withProgress] of [progress] is not among the
    sources.  It opens a notification and runs the task with the
    progress callback and the notification's cancellation token; its
    promise settles as the task's does. *)
Definition withProgress {A} (env : Env)
    (task : (N -> N -> string -> M unit) -> CancellationToken -> M A)
    (title : string) (cancellable : bool) : M A :=
  (emit (WithProgress title cancellable) ;;;
   task progress (token env))%eff.

(** Determines the format in which to export the results. *)
Definition determineExportFormat (env : Env) : M (option ExportFormat) :=
  (exportFormat <-
     call (ShowQuickPick [label gistOption; label localMarkdownOption]
                         "Select export format")
          (Return (showQuickPick env [gistOption; localMarkdownOption])) ;;
   match exportFormat with
   | None => throw (UserCancellationException "No export format selected" true)
   | Some picked =>
       if decide (label picked = EmptyString)
       then throw (UserCancellationException "No export format selected" true)
       else if decide (itemRef picked = itemRef gistOption) then ret (Some gist)
       else if decide (itemRef picked = itemRef localMarkdownOption) then ret (Some local)
       else ret None
   end)%eff.

(** The predicate of the [filter] call: a truthy result count, and the
    first repository state with the repository's id is a successful
    download. *)
Definition hasDownloadedResults
    (repoStates : list VariantAnalysisScannedRepositoryState)
    (repo : VariantAnalysisScannedRepository) : bool :=
  match resultCount repo with
  | Some n => negb (n =? 0)
  | None => false
  end
  &&
  match List.find (fun r => repositoryId r =? id (repository repo)) repoStates with
  | Some r => bool_decide (downloadStatus r = DownloadSucceeded)
  | None => false
  end.

(** [filterAndSortRepositoriesWithResults(scannedRepos, filterSort)?.filter(...)] *)
Definition selectRepositories (env : Env) (variantAnalysis : Job)
    (filterSort : option FilterSort.RepositoriesFilterSortStateWithIds)
    (repoStates : list VariantAnalysisScannedRepositoryState)
    : option (list VariantAnalysisScannedRepository) :=
  match filterAndSortRepositoriesWithResults env (scannedRepos variantAnalysis) filterSort with
  | Some repos => Some (List.filter (hasDownloadedResults repoStates) repos)
  | None => None
  end.

(** The async generator [getAnalysesResults].  Its suspended state is the
    position of the [for ... of] loop: the repositories not yet visited.
    The guard on [variantAnalysis] only narrows a type, the value being
    known at that point. *)
Definition getAnalysesResults (mgr : VariantAnalysisManager) (variantAnalysis : Job)
    (repositories : option (list VariantAnalysisScannedRepository))
    : AsyncIterable Item :=
  {| iter_state := list VariantAnalysisScannedRepository;
     iter_start := match repositories with Some repos => repos | None => [] end;
     iter_next := fun remaining =>
       match remaining with
       | [] => ret None
       | repo :: rest =>
           (result <-
              call (LoadResults (va_id variantAnalysis) (fullName (repository repo)) true)
                   (loadResults mgr (va_id variantAnalysis)
                                (fullName (repository repo)) true) ;;
            ret (Some ((repo, result), rest)))%eff
       end |}.

(** Builds the Gist description.
    Ex: Empty Block (Go) x results (y repositories) *)
Definition buildVariantAnalysisGistDescription (variantAnalysis : Job)
    (summaries : list MarkdownGeneration.RepositorySummary) : string :=
  let resultCount :=
    fold_left
      (fun acc summary =>
         acc + match MarkdownGeneration.resultCount summary with
               | Some n => n
               | None => 0
               end)
      summaries 0 in
  let resultLabel := Word.pluralize resultCount "result" "results" in
  let repositoryLabel :=
    if decide (length summaries = 0%nat) then EmptyString
    else "(" +:+ Word.pluralize (N.of_nat (length summaries)) "repository" "repositories"
         +:+ ")" in
  name (query variantAnalysis) +:+ " (" +:+
  QueryLanguage.value (language (query variantAnalysis)) +:+ ") " +:+
  resultLabel +:+ " " +:+ repositoryLabel.

(** [markdownFile.content.join("\n")] *)
Definition joinLines (lines : list string) : string :=
  String.concat Commands.newline lines.

(** The [for ... of] loop of [exportToLocalMarkdown]. *)
Fixpoint writeMarkdownFiles (env : Env) (exportedResultsPath : string)
    (markdownFiles : list MarkdownGeneration.MarkdownFile) : M unit :=
  match markdownFiles with
  | [] => ret tt
  | markdownFile :: rest =>
      let filePath :=
        join env [exportedResultsPath;
                  MarkdownGeneration.fileName markdownFile +:+ ".md"] in
      (call (WriteFile filePath
                       (joinLines (MarkdownGeneration.content markdownFile)) "utf8")
            (writeFile env filePath
                       (joinLines (MarkdownGeneration.content markdownFile)) "utf8") ;;;
       writeMarkdownFiles env exportedResultsPath rest)%eff
  end.

Definition quote : string := String (ascii_of_nat 34) EmptyString.

(** Saves the results of an exported query to local markdown files.  The
    information message is not awaited; what its button does is
    [openExportedResults]. *)
Definition exportToLocalMarkdown (env : Env) (exportedResultsPath : string)
    (markdownFiles : list MarkdownGeneration.MarkdownFile)
    (tok : option CancellationToken) : M unit :=
  (match tok with Some t => throwIfCancelled t | None => ret tt end ;;;
   progress MAX_VARIANT_ANALYSIS_EXPORT_PROGRESS_STEPS 2 "Creating local Markdown files" ;;;
   call (EnsureDir exportedResultsPath) (ensureDir env exportedResultsPath) ;;;
   writeMarkdownFiles env exportedResultsPath markdownFiles ;;;
   emit (ShowInformationMessageWithAction
           ("Variant analysis results exported to " +:+ quote +:+
            exportedResultsPath +:+ quote +:+ ".")
           "Open exported results"))%eff.

(** The continuation of the information message of
    [exportToLocalMarkdown], run by the host once the user has answered. *)
Definition openExportedResults (env : Env) (exportedResultsPath : string)
    (shouldOpenExportedResults : bool) : M unit :=
  if shouldOpenExportedResults then
    let summaryFilePath := join env [exportedResultsPath; "_summary.md"] in
    (emit (OpenTextDocument summaryFilePath) ;;;
     emit (ShowTextDocument summaryFilePath) ;;;
     emit (ExecuteCommand "revealFileInOS" summaryFilePath))%eff
  else ret tt.

(** The [reduce] of [exportToGist]: an object keyed by file name. *)
Definition gistFiles (markdownFiles : list MarkdownGeneration.MarkdownFile)
    : gmap string string :=
  fold_left
    (fun acc cur =>
       <[ MarkdownGeneration.fileName cur +:+ ".md" :=
          joinLines (MarkdownGeneration.content cur) ]> acc)
    markdownFiles ∅.

Definition exportToGist (env : Env) (description : string)
    (markdownFiles : list MarkdownGeneration.MarkdownFile)
    (credentials : Credentials) (tok : option CancellationToken) : M unit :=
  (progress MAX_VARIANT_ANALYSIS_EXPORT_PROGRESS_STEPS 2 "Creating Gist" ;;;
   match tok with Some t => throwIfCancelled t | None => ret tt end ;;;
   gistUrl <- call (CreateGist description (gistFiles markdownFiles))
                   (createGist env credentials description (gistFiles markdownFiles)) ;;
   match gistUrl with
   | Some url =>
       if decide (url = EmptyString) then ret tt
       else emit (ShowInformationMessageWithAction
                    "Variant analysis results exported to gist." "Open gist")
   | None => ret tt
   end)%eff.

(** The continuation of the information message of [exportToGist]. *)
Definition openGist (gistUrl : string) (shouldOpenGist : bool) : M unit :=
  if shouldOpenGist then emit (ExecuteCommand "vscode.open" gistUrl) else ret tt.

Definition exportResults (env : Env) (exportedResultsPath description : string)
    (markdownFiles : list MarkdownGeneration.MarkdownFile)
    (exportFormat : ExportFormat) (credentials : Credentials)
    (tok : option CancellationToken) : M unit :=
  (match tok with Some t => throwIfCancelled t | None => ret tt end ;;;
   match exportFormat with
   | gist => exportToGist env description markdownFiles credentials tok
   | local => exportToLocalMarkdown env exportedResultsPath markdownFiles tok
   end)%eff.

Definition exportVariantAnalysisAnalysisResults (env : Env)
    (exportedResultsPath : string) (variantAnalysis : Job)
    (analysesResults : AsyncIterable Item) (expectedAnalysesResultsCount : nat)
    (exportFormat : ExportFormat) (credentials : Credentials)
    (tok : CancellationToken) : M unit :=
  (throwIfCancelled tok ;;;
   progress MAX_VARIANT_ANALYSIS_EXPORT_PROGRESS_STEPS 1 "Generating Markdown files" ;;;
   rendered <- generateVariantAnalysisMarkdown env variantAnalysis analysesResults
                 expectedAnalysesResultsCount exportFormat ;;
   let description := buildVariantAnalysisGistDescription variantAnalysis (snd rendered) in
   exportResults env exportedResultsPath description (fst rendered) exportFormat
                 credentials (Some tok))%eff.

(** The date formatted like 20221115T123456Z; the time is in UTC. *)
Definition formattedDate (d : JsDate.Date) : string :=
  JsDate.replaceFraction (JsDate.removeDashesAndColons (JsDate.toISOString d)).

Definition exportedResultsDirectory (env : Env) (exportDirectory : string)
    (d : JsDate.Date) : string :=
  join env [exportDirectory; "exported-results"; "results_" +:+ formattedDate d].

(** Exports the results of the given or currently-selected variant
    analysis.  The user is prompted to select the export format. *)
Definition exportVariantAnalysisResults (env : Env) (mgr : VariantAnalysisManager)
    (variantAnalysisId : N)
    (filterSort : option FilterSort.RepositoriesFilterSortStateWithIds)
    (credentials : Credentials) : M unit :=
  withProgress env
    (fun _ tok =>
       match getVariantAnalysis mgr variantAnalysisId with
       | None =>
           (emit (Log ("Could not find variant analysis with id " +:+
                       pretty variantAnalysisId)) ;;;
            throw (OtherError
              "There was an error when trying to retrieve variant analysis information"))%eff
       | Some variantAnalysis =>
           (throwIfCancelled tok ;;;
            let repoStates := getRepoStates mgr variantAnalysisId in
            emit (Log ("Exporting variant analysis results for variant analysis with id "
                       +:+ pretty (va_id variantAnalysis))) ;;;
            progress MAX_VARIANT_ANALYSIS_EXPORT_PROGRESS_STEPS 0
                     "Determining export format" ;;;
            exportFormat <- determineExportFormat env ;;
            match exportFormat with
            | None => ret tt
            | Some format =>
                throwIfCancelled tok ;;;
                let repositories :=
                  selectRepositories env variantAnalysis filterSort repoStates in
                let exportDirectory :=
                  getVariantAnalysisStorageLocation mgr (va_id variantAnalysis) in
                date <- observe (newDate env) ;;
                exportVariantAnalysisAnalysisResults env
                  (exportedResultsDirectory env exportDirectory date)
                  variantAnalysis
                  (getAnalysesResults mgr variantAnalysis repositories)
                  (match repositories with Some repos => length repos | None => 0%nat end)
                  format credentials tok
            end)%eff
       end)
    "Exporting variant analysis results" true.

End Pipeline.

End ExportResults.

(** ** The monitor loop, the differ and the dispatcher *)

Module Monitor.
Import SharedTypes.

(** The wire representation of a status snapshot:
    [{status, failure_reason?, scanned_repositories:
      [{repository, analysis_status, result_count?, artifact_size?}]}]. *)
Inductive ApiStatus := in_progress | succeeded | failed | cancelled.

Inductive ApiRepoStatus :=
| repo_pending | repo_in_progress | repo_succeeded | repo_failed.

Record ApiRepository := {
  api_id : N;
  full_name : string;
}.

Record ApiScannedRepository := {
  api_repository : ApiRepository;
  analysis_status : ApiRepoStatus;
  result_count : option N;
  artifact_size : option N;
}.

Record ApiResponse (RawFailureReason : Type) := {
  api_status : ApiStatus;
  failure_reason : option RawFailureReason;
  scanned_repositories : list ApiScannedRepository;
}.
Arguments api_status {_} _.
Arguments failure_reason {_} _.
Arguments scanned_repositories {_} _.

#[global] Instance api_status_eq_dec : EqDecision ApiStatus.
Proof. solve_decision. Defined.

#[global] Instance api_repo_status_eq_dec : EqDecision ApiRepoStatus.
Proof. solve_decision. Defined.

Definition repoId (r : ApiScannedRepository) : N := api_id (api_repository r).

Section Loop.

Context {RawFailureReason FailureReason : Type}.

Local Abbreviation Job := (VariantAnalysis FailureReason).
Local Abbreviation Snapshot := (ApiResponse RawFailureReason).

(** The pure functions of the status processor, taken as parameters:
    the monitor only passes their results on. *)
Record Processor := {
  processScannedRepository : ApiScannedRepository -> VariantAnalysisScannedRepository;
  processUpdatedVariantAnalysis : Job -> Snapshot -> Job;
  processFailureReason : RawFailureReason -> FailureReason;
}.

(** The collaborators and configuration knobs of one monitor: the
    cancellation predicate and the status fetch, whose answers at the
    poll of a given index are oracles ([None] is a rejected fetch), the
    attempt ceiling and the sleep interval. *)
Record Env := {
  shouldCancelMonitor : N -> nat -> bool;
  getVariantAnalysis : N -> nat -> option Snapshot;
  maxAttemptCount : nat;
  sleepTime : N;
}.

(** What a run does that can be observed from outside. *)
Inductive MonitorEvent :=
| Fetched (snapshot : Snapshot)
| FetchRejected
| DownloadTrigger (repo : VariantAnalysisScannedRepository) (job : Job)
| Change (job : Job)
| Sleep (ms : N).

Inductive Completion := Resolved | Rejected.

Definition isTerminalRepoStatus (s : ApiRepoStatus) : bool :=
  match s with
  | repo_succeeded | repo_failed => true
  | repo_pending | repo_in_progress => false
  end.

Definition isSucceeded (r : ApiScannedRepository) : bool :=
  bool_decide (analysis_status r = repo_succeeded).

Definition isFailure (s : ApiStatus) : bool := bool_decide (s = failed).

Definition isFinal (s : ApiStatus) : bool := negb (bool_decide (s = in_progress)).

(** Modelled from the spec: the differ is not among the sources.  Delta
    detection is keyed by repository id and only checks that a
    repository is terminal now and was not already reported as terminal.
    [reported] is the set of the ids reported so far; the result is the
    delta, in the order of the snapshot's collection, and the new set. *)
Fixpoint delta (reported : gset N) (repos : list ApiScannedRepository)
    : list ApiScannedRepository * gset N :=
  match repos with
  | [] => ([], reported)
  | r :: rest =>
      if isTerminalRepoStatus (analysis_status r) && bool_decide (repoId r ∉ reported)
      then let '(d, reported') := delta ({[repoId r]} ∪ reported) rest in
           (r :: d, reported')
      else delta reported rest
  end.

(** Step 3 of the loop: the job marked as failed, with the typed failure
    classification. *)
Definition markFailed (p : Processor) (job : Job) (snapshot : Snapshot) : Job :=
  {| va_id := va_id job;
     query := query job;
     status := Failed;
     failureReason := processFailureReason p <$> failure_reason snapshot;
     scannedRepos := scannedRepos job |}.

(** Step 5: one download trigger per delta entry in the Succeeded state,
    in the order of the delta, each with the processed repository and
    the processed job. *)
Definition dispatch (p : Processor) (job' : Job) (d : list ApiScannedRepository)
    : list MonitorEvent :=
  map (fun r => DownloadTrigger (processScannedRepository p r) job')
      (List.filter isSucceeded d).

(** Modelled from the spec: the monitor loop is not among the sources
    (its test is).  One iteration: the cancellation check, the fetch,
    the failure case, the diff, the dispatch, the change event, the
    terminal check, the sleep.  [attempts] bounds the polls that are
    left; when it runs out the loop stops silently. *)
Fixpoint monitorFrom (p : Processor) (env : Env) (attempts poll : nat)
    (job : Job) (reported : gset N) : list MonitorEvent * Completion :=
  match attempts with
  | O => ([], Resolved)
  | S attempts' =>
      if shouldCancelMonitor env (va_id job) poll then ([], Resolved)
      else
        match getVariantAnalysis env (va_id job) poll with
        | None => ([FetchRejected], Rejected)
        | Some snapshot =>
            if isFailure (api_status snapshot)
            then ([Fetched snapshot; Change (markFailed p job snapshot)], Resolved)
            else
              let job' := processUpdatedVariantAnalysis p job snapshot in
              let '(d, reported') := delta reported (scanned_repositories snapshot) in
              let events := Fetched snapshot :: dispatch p job' d ++ [Change job'] in
              if isFinal (api_status snapshot) then (events, Resolved)
              else
                let '(later, c) :=
                  monitorFrom p env attempts' (S poll) job' reported' in
                (events ++ Sleep (sleepTime env) :: later, c)
        end
  end.

(** [monitor(job)].  The test of the monitor expects four fetches when
    the ceiling is three: the polls are numbered from zero up to the
    ceiling, inclusive. *)
Definition monitorVariantAnalysis (p : Processor) (env : Env) (job : Job)
    : list MonitorEvent * Completion :=
  monitorFrom p env (S (maxAttemptCount env)) 0 job ∅.

(** *** Readings of a trace *)

Definition changeEvents (evs : list MonitorEvent) : list Job :=
  omap (fun ev => match ev with Change j => Some j | _ => None end) evs.

Definition downloadTriggers (evs : list MonitorEvent)
    : list (VariantAnalysisScannedRepository * Job) :=
  omap (fun ev => match ev with DownloadTrigger r j => Some (r, j) | _ => None end) evs.

Definition fetches (evs : list MonitorEvent) : nat :=
  length (List.filter (fun ev => match ev with
                                 | Fetched _ | FetchRejected => true
                                 | _ => false
                                 end) evs).

(** The ids of the repositories for which a download was triggered. *)
Definition downloadedIds (evs : list MonitorEvent) : list N :=
  map (fun rj => id (repository (fst rj))) (downloadTriggers evs).

(** The snapshots that the run received. *)
Definition observedSnapshots (evs : list MonitorEvent) : list Snapshot :=
  omap (fun ev => match ev with Fetched s => Some s | _ => None end) evs.

(** The repository entries of the snapshots that the run diffed (those
    without a failed top-level status), in the order received. *)
Definition diffedEntries (evs : list MonitorEvent) : list ApiScannedRepository :=
  concat (map scanned_repositories
              (List.filter (fun s => negb (isFailure (api_status s)))
                           (observedSnapshots evs))).

(** The repositories that some observed snapshot reports as Succeeded. *)
Definition everSucceeded (evs : list MonitorEvent) : gset N :=
  list_to_set
    (map repoId
         (List.filter isSucceeded
                      (concat (map scanned_repositories (observedSnapshots evs))))).

(** The first entry of [entries] that reports repository [rid] in a
    terminal state. *)
Definition firstTerminal (rid : N) (entries : list ApiScannedRepository)
    : option ApiScannedRepository :=
  List.find (fun e => (repoId e =? rid) && isTerminalRepoStatus (analysis_status e))
            entries.

(** The repositories whose first terminal report is Succeeded. *)
Definition succeededFirst (entries : list ApiScannedRepository) : gset N :=
  list_to_set
    (List.filter
       (fun rid => match firstTerminal rid entries with
                   | Some e => isSucceeded e
                   | None => false
                   end)
       (map repoId entries)).

End Loop.

End Monitor.

(** ** The wording of the specification, as definitions *)

Module Wording.

(** The sum of the per-repository result counts of the summaries, an
    absent count adding nothing. *)
Fixpoint totalResultCount (summaries : list MarkdownGeneration.RepositorySummary) : N :=
  match summaries with
  | [] => 0
  | s :: rest => default 0 (MarkdownGeneration.resultCount s) + totalResultCount rest
  end.

(** A count followed by a noun, singular exactly when the count is 1. *)
Definition counted (n : N) (singular plural : string) : string :=
  pretty n +:+ " " +:+ (if (n =? 1) then singular else plural).

(** [<query name> (<query language>) <N> results (<M> repositories)],
    without the parenthetical when [M] is zero. *)
Definition description (queryName queryLanguage : string) (n m : N) : string :=
  queryName +:+ " (" +:+ queryLanguage +:+ ") " +:+ counted n "result" "results"
  +:+ " " +:+
  (if (m =? 0) then EmptyString
   else "(" +:+ counted m "repository" "repositories" +:+ ")").

(** The download state recorded for a repository: the states are keyed
    by repository id. *)
Definition downloadStates
    (repoStates : list SharedTypes.VariantAnalysisScannedRepositoryState)
    : gmap N SharedTypes.VariantAnalysisScannedRepositoryDownloadStatus :=
  list_to_map
    (map (fun r => (SharedTypes.repositoryId r, SharedTypes.downloadStatus r)) repoStates).

(** A repository is eligible for export when its result count is known
    and non-zero and its download state is Succeeded. *)
Definition eligible
    (repoStates : list SharedTypes.VariantAnalysisScannedRepositoryState)
    (repo : SharedTypes.VariantAnalysisScannedRepository) : Prop :=
  (exists n, SharedTypes.resultCount repo = Some n /\ n <> 0) /\
  downloadStates repoStates !! SharedTypes.id (SharedTypes.repository repo)
  = Some SharedTypes.DownloadSucceeded.

(** The [w] low decimal digits of [n], most significant first. *)
Fixpoint digits (w : nat) (n : N) : string :=
  match w with
  | O => EmptyString
  | S w' => digits w' (n / 10) +:+ String (pretty_N_char (n mod 10)) EmptyString
  end.

(** The compact ISO form of a UTC time: [YYYYMMDD], a [T], [HHMMSS] and a
    final [Z]. *)
Definition compactTimestamp (d : JsDate.Date) : string :=
  digits 4 (Z.to_N (JsDate.year d)) +:+ digits 2 (JsDate.month d) +:+
  digits 2 (JsDate.day d) +:+ "T" +:+ digits 2 (JsDate.hours d) +:+
  digits 2 (JsDate.minutes d) +:+ digits 2 (JsDate.seconds d) +:+ "Z".

(** The calendar fields of a time value with a four-digit year. *)
Definition validDate (d : JsDate.Date) : Prop :=
  (0 <= JsDate.year d <= 9999)%Z /\
  1 <= JsDate.month d <= 12 /\ 1 <= JsDate.day d <= 31 /\
  JsDate.hours d <= 23 /\ JsDate.minutes d <= 59 /\ JsDate.seconds d <= 59 /\
  JsDate.milliseconds d <= 999.

Fixpoint allDigits (s : string) : bool :=
  match s with
  | EmptyString => true
  | String c rest => JsDate.isDigit c && allDigits rest
  end.

(** Eight digits, a [T], six digits, a [Z], and nothing else. *)
Definition isCompactTimestamp (s : string) : bool :=
  (String.length s =? 16)%nat &&
  allDigits (substring 0 8 s) && String.eqb (substring 8 1 s) "T" &&
  allDigits (substring 9 6 s) && String.eqb (substring 15 1 s) "Z".

End Wording.

(** ** The calls that the theorems speak of *)

Module Traces.
Import Effects SharedTypes ExportResults.

(** The events by which an error is reported to the user as an error. *)
Definition isErrorReport (ev : Event) : bool :=
  match ev with
  | ShowAndLogExceptionWithTelemetry _ _ _ => true
  | _ => false
  end.

Definition isWarning (ev : Event) : bool :=
  match ev with
  | ShowAndLogWarningMessage _ => true
  | _ => false
  end.

(** A consumer that calls [next()] at most [k] times and collects what
    is yielded. *)
Fixpoint take_items {T} (it : AsyncIterable T) (k : nat) (st : iter_state it)
    : M (list T) :=
  match k with
  | O => ret []
  | S k' =>
      (r <- iter_next it st ;;
       match r with
       | None => ret []
       | Some (item, st') => (items <- take_items it k' st' ;; ret (item :: items))
       end)%eff
  end.

(** The single report that the [catch] block makes of a thrown value. *)
Definition reportOf (hp : Commands.Helpers) (commandId : string) (e : Thrown) : Event :=
  let msg := Commands.fullMessage (Commands.redactableError hp (Commands.asError hp e) (Commands.messageOrValue hp e) commandId) in
  match e with
  | UserCancellationException _ true => Log msg
  | UserCancellationException _ false => ShowAndLogWarningMessage msg
  | OtherError _ =>
      ShowAndLogExceptionWithTelemetry msg
        (if decide (Commands.getErrorStack hp e = EmptyString) then msg
         else msg +:+ Commands.newline +:+ Commands.getErrorStack hp e)
        commandId
  end.

(** The command-usage record of the [finally] block, sent for every
    invocation when the telemetry listener is defined. *)
Definition usageOf (host : Commands.Host) (commandId : string) (h0 h : list Event)
    (error : option Thrown) : list Event :=
  if Commands.telemetryListener host
  then [SendCommandUsage commandId (Commands.now host h - Commands.now host h0)%Z error]
  else [].

Section WithTypes.
Context {ScannedRepositoryResult Credentials FailureReason : Type}.
Implicit Types (env : @Env ScannedRepositoryResult Credentials FailureReason).
Implicit Types (mgr : @VariantAnalysisManager ScannedRepositoryResult FailureReason).

Definition pickerShown : Event :=
  ShowQuickPick [label gistOption; label localMarkdownOption] "Select export format".

(** The history of an export up to the format picker, and including it. *)
Definition beforePicker (h0 : list Event) (variantAnalysis : VariantAnalysis FailureReason)
    : list Event :=
  h0 ++ [ WithProgress "Exporting variant analysis results" true;
          Log ("Exporting variant analysis results for variant analysis with id "
               +:+ pretty (va_id variantAnalysis));
          Progress 2 0 "Determining export format" ].

Definition upToPicker (h0 : list Event) (variantAnalysis : VariantAnalysis FailureReason)
    : list Event :=
  beforePicker h0 variantAnalysis ++ [pickerShown].

(** What [exportVariantAnalysisResults] does once the format is known. *)
Definition afterFormat env mgr (variantAnalysisId : N)
    (variantAnalysis : VariantAnalysis FailureReason)
    (filterSort : option FilterSort.RepositoriesFilterSortStateWithIds)
    (credentials : Credentials) (format : ExportFormat) : M unit :=
  (throwIfCancelled (token env) ;;;
   let repositories :=
     selectRepositories env variantAnalysis filterSort
       (getRepoStates mgr variantAnalysisId) in
   date <- observe (newDate env) ;;
   exportVariantAnalysisAnalysisResults env
     (exportedResultsDirectory env
        (getVariantAnalysisStorageLocation mgr (va_id variantAnalysis)) date)
     variantAnalysis
     (getAnalysesResults mgr variantAnalysis repositories)
     (match repositories with Some repos => length repos | None => 0%nat end)
     format credentials (token env))%eff.

(** The call that loads the results of [repo]. *)
Definition loadOf (variantAnalysis : VariantAnalysis FailureReason)
    (repo : VariantAnalysisScannedRepository) : Event :=
  LoadResults (va_id variantAnalysis) (fullName (repository repo)) true.

(** The write of one rendered file under [dir]. *)
Definition writeOf env (dir : string) (f : MarkdownGeneration.MarkdownFile) : Event :=
  WriteFile (join env [dir; MarkdownGeneration.fileName f +:+ ".md"])
            (joinLines (MarkdownGeneration.content f)) "utf8".

(** The calls of a local export once the files are rendered. *)
Definition localWrites env (dir : string)
    (files : list MarkdownGeneration.MarkdownFile) : list Event :=
  [ Progress 2 2 "Creating local Markdown files"; EnsureDir dir ]
  ++ map (writeOf env dir) files
  ++ [ ShowInformationMessageWithAction
         ("Variant analysis results exported to " +:+ quote +:+ dir +:+ quote +:+ ".")
         "Open exported results" ].

End WithTypes.

End Traces.

(** ** Concrete collaborators, for running the definitions *)

Module Fixtures.
Import Effects SharedTypes ExportResults Traces.

Definition date20221115 : JsDate.Date :=
  {| JsDate.year := 2022; JsDate.month := 11; JsDate.day := 15;
     JsDate.hours := 12; JsDate.minutes := 34; JsDate.seconds := 56;
     JsDate.milliseconds := 789 |}.

(** A renderer that drains the sequence and writes one file per pair,
    then the summary file. *)
Definition renderAll
    (variantAnalysis : VariantAnalysis unit)
    (results : AsyncIterable (VariantAnalysisScannedRepository * list string))
    (expected : nat) (format : ExportFormat)
    : M (list MarkdownGeneration.MarkdownFile * list MarkdownGeneration.RepositorySummary) :=
  (items <- take_items results (S expected) (iter_start results) ;;
   ret (map (fun item =>
               {| MarkdownGeneration.fileName := fullName (repository (fst item));
                  MarkdownGeneration.content := snd item |}) items
        ++ [ {| MarkdownGeneration.fileName := "_summary";
                MarkdownGeneration.content := ["# Summary"] |} ],
        map (fun item =>
               {| MarkdownGeneration.summaryFileName := fullName (repository (fst item));
                  MarkdownGeneration.resultCount := resultCount (fst item) |}) items))%eff.

(** A host on which nothing fails, nobody cancels, and the picker answers
    [pick]. *)
Definition env (pick : option QuickPickItem) : @Env (list string) unit unit :=
  {| showQuickPick := fun _ => pick;
     token := {| isCancellationRequested := fun _ => false |};
     newDate := fun _ => date20221115;
     join := String.concat "/";
     ensureDir := fun _ => Return tt;
     writeFile := fun _ _ _ => Return tt;
     createGist := fun _ _ _ => Return (Some "https://gist.github.com/1");
     filterAndSortRepositoriesWithResults := fun repos _ => repos;
     generateVariantAnalysisMarkdown := renderAll |}.

Definition repo (rid : N) (repoName : string) (count : option N)
    : VariantAnalysisScannedRepository :=
  {| repository := {| id := rid; fullName := repoName; stargazersCount := 0;
                      updatedAt := None |};
     analysisStatus := RepoSucceeded;
     resultCount := count;
     artifactSizeInBytes := None |}.

Definition job : VariantAnalysis unit :=
  {| va_id := 7;
     query := {| name := "Empty Block"; language := QueryLanguage.Go |};
     status := Succeeded;
     failureReason := None;
     scannedRepos := Some [repo 1 "octo/a" (Some 3); repo 2 "octo/b" (Some 0);
                           repo 3 "octo/c" (Some 5); repo 4 "octo/d" (Some 1)] |}.

Definition manager : @VariantAnalysisManager (list string) unit :=
  {| getVariantAnalysis := fun i => if i =? 7 then Some job else None;
     getRepoStates := fun _ =>
       [ {| repositoryId := 1; downloadStatus := DownloadSucceeded |};
         {| repositoryId := 2; downloadStatus := DownloadSucceeded |};
         {| repositoryId := 3; downloadStatus := DownloadFailed |};
         {| repositoryId := 4; downloadStatus := DownloadSucceeded |} ];
     loadResults := fun _ repoName _ => Return ["results of " +:+ repoName];
     getVariantAnalysisStorageLocation := fun _ => "/storage/7" |}.

(** Helpers that read the message off the thrown value. *)
Definition helpers : Commands.Helpers :=
  {| Commands.asError := fun e => e;
     Commands.getErrorMessage := fun e =>
       match e with
       | UserCancellationException m _ => m
       | OtherError d => d
       end;
     Commands.getErrorStack := fun _ => EmptyString;
     Commands.redactableError := fun _ first commandId =>
       {| Commands.fullMessage :=
            match first with
            | inl m => m
            | inr _ => "error"
            end +:+ " (" +:+ commandId +:+ ")" |} |}.

Definition host : Commands.Host :=
  {| Commands.now := fun h => Z.of_nat (length h); Commands.telemetryListener := true |}.

End Fixtures.

(** ** Concrete snapshots and processor, for running the monitor *)

Module MonitorFixtures.
Import SharedTypes Monitor.

Inductive Reason := NoReposQueried | InternalError | RateLimited | Unknown.

Definition toRepoStatus (s : ApiRepoStatus) : VariantAnalysisRepoStatus :=
  match s with
  | repo_pending => RepoPending
  | repo_in_progress => RepoInProgress
  | repo_succeeded => RepoSucceeded
  | repo_failed => RepoFailed
  end.

Definition toStatus (s : ApiStatus) : VariantAnalysisStatus :=
  match s with
  | in_progress => InProgress
  | succeeded => Succeeded
  | failed => Failed
  | cancelled => Canceled
  end.

Definition normalize (r : ApiScannedRepository) : VariantAnalysisScannedRepository :=
  {| repository := {| id := repoId r; fullName := full_name (api_repository r);
                      stargazersCount := 0; updatedAt := None |};
     analysisStatus := toRepoStatus (analysis_status r);
     resultCount := result_count r;
     artifactSizeInBytes := artifact_size r |}.

Definition classify (raw : string) : Reason :=
  if String.eqb raw "no_repos_queried" then NoReposQueried
  else if String.eqb raw "internal_error" then InternalError
  else if String.eqb raw "rate_limited" then RateLimited
  else Unknown.

Definition processor : @Processor string Reason :=
  {| processScannedRepository := normalize;
     processUpdatedVariantAnalysis := fun job snapshot =>
       {| va_id := va_id job;
          query := query job;
          status := toStatus (api_status snapshot);
          failureReason := classify <$> failure_reason snapshot;
          scannedRepos := Some (map normalize (scanned_repositories snapshot)) |};
     processFailureReason := classify |}.

Definition job : VariantAnalysis Reason :=
  {| va_id := 7;
     query := {| name := "Empty Block"; language := QueryLanguage.Go |};
     status := InProgress;
     failureReason := None;
     scannedRepos := None |}.

Definition scanned (rid : N) (s : ApiRepoStatus) : ApiScannedRepository :=
  {| api_repository := {| api_id := rid; full_name := "octo/" +:+ pretty rid |};
     analysis_status := s;
     result_count := None;
     artifact_size := None |}.

(** Repositories numbered from [first], with the given statuses. *)
Fixpoint createMockScannedRepos (first : N) (statuses : list ApiRepoStatus)
    : list ApiScannedRepository :=
  match statuses with
  | [] => []
  | s :: rest => scanned first s :: createMockScannedRepos (N.succ first) rest
  end.

Definition response (s : ApiStatus) (repos : list ApiScannedRepository)
    : ApiResponse string :=
  {| api_status := s; failure_reason := None; scanned_repositories := repos |}.

Definition failedResponse : ApiResponse string :=
  {| api_status := failed;
     failure_reason := Some "internal_error";
     scanned_repositories :=
       createMockScannedRepos 1 [repo_succeeded; repo_pending; repo_in_progress] |}.

(** A monitor that is never cancelled and whose fetches answer the
    given responses in turn, then reject; the knobs are those of the
    test. *)
Definition envOf (responses : list (ApiResponse string)) : @Env string :=
  {| shouldCancelMonitor := fun _ _ => false;
     getVariantAnalysis := fun _ poll => responses !! poll;
     maxAttemptCount := 3;
     sleepTime := 1 |}.

Definition cancelledEnv : @Env string :=
  {| shouldCancelMonitor := fun _ _ => true;
     getVariantAnalysis := fun _ _ => Some failedResponse;
     maxAttemptCount := 3;
     sleepTime := 1 |}.

(** The four snapshots of the test in which the responses change. *)
Definition changingResponses : list (ApiResponse string) :=
  [ response in_progress
      (createMockScannedRepos 1 [repo_pending; repo_in_progress; repo_in_progress;
                                 repo_in_progress; repo_pending; repo_pending]);
    response in_progress
      (createMockScannedRepos 1 [repo_succeeded; repo_succeeded; repo_in_progress;
                                 repo_in_progress; repo_pending; repo_pending]);
    response in_progress
      (createMockScannedRepos 1 [repo_succeeded; repo_succeeded; repo_succeeded;
                                 repo_in_progress; repo_pending; repo_succeeded]);
    response in_progress
      (createMockScannedRepos 1 [repo_succeeded; repo_succeeded; repo_succeeded;
                                 repo_succeeded; repo_failed; repo_succeeded]) ].

(** The seven repositories of the test with already-succeeded ones. *)
Definition sevenRepos : list ApiScannedRepository :=
  createMockScannedRepos 1 [repo_pending; repo_pending; repo_in_progress;
                            repo_in_progress; repo_succeeded; repo_succeeded;
                            repo_succeeded].

End MonitorFixtures.

(** ** The tables of the query languages *)

Module QueryLanguageTables.

(** An object literal: the properties are set in the order written, a
    later one replacing an earlier one with the same key. *)
Definition objectOf {V} (entries : list (string * V)) : gmap string V :=
  fold_left (fun acc kv => <[ fst kv := snd kv ]> acc) entries ∅.

Definition PACKS_BY_QUERY_LANGUAGE_entries : list (string * list string) :=
  [ (QueryLanguage.value QueryLanguage.Cpp, ["codeql/cpp-queries"]);
    (QueryLanguage.value QueryLanguage.CSharp,
       ["codeql/csharp-queries"; "codeql/csharp-solorigate-queries"]);
    (QueryLanguage.value QueryLanguage.Go, ["codeql/go-queries"]);
    (QueryLanguage.value QueryLanguage.Java, ["codeql/java-queries"]);
    (QueryLanguage.value QueryLanguage.Javascript,
       ["codeql/javascript-queries"; "codeql/javascript-experimental-atm-queries"]);
    (QueryLanguage.value QueryLanguage.Python, ["codeql/python-queries"]);
    (QueryLanguage.value QueryLanguage.Ruby, ["codeql/ruby-queries"]) ].

Definition PACKS_BY_QUERY_LANGUAGE : gmap string (list string) :=
  objectOf PACKS_BY_QUERY_LANGUAGE_entries.

Definition dbSchemeToLanguage_entries : list (string * string) :=
  [ ("semmlecode.javascript.dbscheme", "javascript");
    ("semmlecode.cpp.dbscheme", "cpp");
    ("semmlecode.dbscheme", "java");
    ("semmlecode.python.dbscheme", "python");
    ("semmlecode.csharp.dbscheme", "csharp");
    ("go.dbscheme", "go");
    ("ruby.dbscheme", "ruby");
    ("swift.dbscheme", "swift") ].

Definition dbSchemeToLanguage : gmap string string :=
  objectOf dbSchemeToLanguage_entries.

Definition allLanguages : list QueryLanguage.t :=
  [ QueryLanguage.CSharp; QueryLanguage.Cpp; QueryLanguage.Go; QueryLanguage.Java;
    QueryLanguage.Javascript; QueryLanguage.Python; QueryLanguage.Ruby;
    QueryLanguage.Swift ].

End QueryLanguageTables.

(** ** Further notions for the export and the commands *)

Module ExportTraces.
Import Effects SharedTypes ExportResults Traces.

Definition cancelled : Thrown := UserCancellationException "Cancelled" false.

Definition notFound : Thrown :=
  OtherError "There was an error when trying to retrieve variant analysis information".

Definition progressShown : Event :=
  WithProgress "Exporting variant analysis results" true.

Definition isFileSystemCall (ev : Event) : bool :=
  match ev with
  | EnsureDir _ | WriteFile _ _ _ => true
  | _ => false
  end.

Definition isGistCall (ev : Event) : bool :=
  match ev with
  | CreateGist _ _ => true
  | _ => false
  end.

Definition gistExported : Event :=
  ShowInformationMessageWithAction "Variant analysis results exported to gist." "Open gist".

(** The key under which a rendered file is uploaded or written. *)
Definition mdName (f : MarkdownGeneration.MarkdownFile) : string :=
  MarkdownGeneration.fileName f +:+ ".md".

End ExportTraces.

(** ** Hosts on which something fails or somebody cancels *)

Module ExtraFixtures.
Import Effects SharedTypes ExportResults Traces.

(** The host of [Fixtures] with the given picker answer, cancellation
    token, file-system answers, Gist answer and renderer. *)
Definition custom (pick : option QuickPickItem) (cancelledAt : list Event -> bool)
    (ensure : string -> Outcome unit)
    (write : string -> string -> string -> Outcome unit)
    (gistAnswer : Outcome (option string))
    (render : VariantAnalysis unit ->
              AsyncIterable (VariantAnalysisScannedRepository * list string) ->
              nat -> ExportFormat ->
              M (list MarkdownGeneration.MarkdownFile *
                 list MarkdownGeneration.RepositorySummary))
    : @Env (list string) unit unit :=
  {| showQuickPick := fun _ => pick;
     token := {| isCancellationRequested := cancelledAt |};
     newDate := fun _ => Fixtures.date20221115;
     join := String.concat "/";
     ensureDir := ensure;
     writeFile := write;
     createGist := fun _ _ _ => gistAnswer;
     filterAndSortRepositoriesWithResults := fun repos _ => repos;
     generateVariantAnalysisMarkdown := render |}.

Definition never : list Event -> bool := fun _ => false.

(** Cancellation requested once [n] calls have been made. *)
Definition after (n : nat) : list Event -> bool := fun h => (n <=? length h)%nat.

Definition succeeds : string -> Outcome unit := fun _ => Return tt.

Definition writes : string -> string -> string -> Outcome unit := fun _ _ _ => Return tt.

(** Writes that fail on the file of the given path. *)
Definition writesExcept (path : string) : string -> string -> string -> Outcome unit :=
  fun p _ _ => if String.eqb p path then Throw (OtherError "EACCES") else Return tt.

(** A manager whose cache misses the results of one repository. *)
Definition managerMissing (repoName : string)
    : @VariantAnalysisManager (list string) unit :=
  {| getVariantAnalysis := getVariantAnalysis Fixtures.manager;
     getRepoStates := getRepoStates Fixtures.manager;
     loadResults := fun _ name _ =>
       if String.eqb name repoName then Throw (OtherError "Missing results")
       else Return ["results of " +:+ name];
     getVariantAnalysisStorageLocation :=
       getVariantAnalysisStorageLocation Fixtures.manager |}.

Definition file (fileName : string) (line : string) : MarkdownGeneration.MarkdownFile :=
  {| MarkdownGeneration.fileName := fileName; MarkdownGeneration.content := [line] |}.

End ExtraFixtures.

(** ** Further readings of a monitor trace *)

Module MonitorTraces.
Import SharedTypes Monitor.

Section WithTypes.
Context {RawFailureReason FailureReason : Type}.

(** The processed repositories handed to the download triggers, in the
    order of the triggers. *)
Definition triggeredRepos (evs : list (@MonitorEvent RawFailureReason FailureReason))
    : list VariantAnalysisScannedRepository :=
  map fst (downloadTriggers evs).

End WithTypes.

(** A monitor that is never cancelled and always receives the same
    snapshot. *)
Definition steadyEnv (snapshot : ApiResponse string) (ceiling : nat) : @Env string :=
  {| shouldCancelMonitor := fun _ _ => false;
     getVariantAnalysis := fun _ _ => Some snapshot;
     maxAttemptCount := ceiling;
     sleepTime := 1 |}.

End MonitorTraces.

(** * Theorems *)

(** ** The description string *)

Module DescriptionFacts.
Import SharedTypes ExportResults.

Lemma fold_left_resultCount (summaries : list MarkdownGeneration.RepositorySummary) (acc : N) :
  fold_left
    (fun acc summary =>
       acc + match MarkdownGeneration.resultCount summary with
             | Some n => n
             | None => 0
             end)
    summaries acc
  = acc + Wording.totalResultCount summaries.
Proof.
  revert acc. induction summaries as [|s rest IH]; intros acc; simpl.
  - lia.
  - rewrite IH. destruct (MarkdownGeneration.resultCount s); simpl; lia.
Qed.

Lemma pluralize_counted (n : N) (singular plural : string) :
  Word.pluralize n singular plural = Wording.counted n singular plural.
Proof.
  unfold Word.pluralize, Wording.counted.
  destruct (N.eqb_spec n 1) as [->|Hne]; [reflexivity|].
  destruct (decide (n = 1)); [contradiction|reflexivity].
Qed.

(** C5.  The export description is
    [<query name> (<query language>) <N> results (<M> repositories)],
    where [N] is the sum of the result counts of the rendered summaries
    and [M] their number, each noun singular exactly when its count is 1;
    with no summary the parenthetical is left out and the result phrase
    is [0 results] (the separating space after it stays). *)
Theorem description_format {FailureReason : Type}
    (variantAnalysis : VariantAnalysis FailureReason)
    (summaries : list MarkdownGeneration.RepositorySummary) :
  buildVariantAnalysisGistDescription variantAnalysis summaries
  = Wording.description (name (query variantAnalysis))
      (QueryLanguage.value (language (query variantAnalysis)))
      (Wording.totalResultCount summaries) (N.of_nat (length summaries))
  /\ buildVariantAnalysisGistDescription variantAnalysis []
     = name (query variantAnalysis) +:+ " (" +:+
       QueryLanguage.value (language (query variantAnalysis)) +:+ ") 0 results ".
Proof.
  split.
  - unfold buildVariantAnalysisGistDescription, Wording.description.
    rewrite fold_left_resultCount, N.add_0_l, !pluralize_counted.
    destruct summaries as [|s rest]; [reflexivity|].
    destruct (decide (length (s :: rest) = 0%nat)) as [H|_]; [discriminate H|].
    reflexivity.
  - unfold buildVariantAnalysisGistDescription. simpl.
    do 3 f_equal.
Qed.

Example description_one_result :
  buildVariantAnalysisGistDescription
    {| va_id := 1; query := {| name := "Empty Block"; language := QueryLanguage.Go |};
       status := Succeeded; failureReason := @None unit; scannedRepos := None |}
    [ {| MarkdownGeneration.summaryFileName := "a"; MarkdownGeneration.resultCount := Some 1 |} ]
  = "Empty Block (go) 1 result (1 repository)".
Proof. vm_compute. reflexivity. Qed.

Example description_many :
  buildVariantAnalysisGistDescription
    {| va_id := 1; query := {| name := "Empty Block"; language := QueryLanguage.Go |};
       status := Succeeded; failureReason := @None unit; scannedRepos := None |}
    [ {| MarkdownGeneration.summaryFileName := "a"; MarkdownGeneration.resultCount := Some 12 |};
      {| MarkdownGeneration.summaryFileName := "b"; MarkdownGeneration.resultCount := None |};
      {| MarkdownGeneration.summaryFileName := "c"; MarkdownGeneration.resultCount := Some 30 |} ]
  = "Empty Block (go) 42 results (3 repositories)".
Proof. vm_compute. reflexivity. Qed.

End DescriptionFacts.

(** ** The repositories selected for export *)

Module SelectionFacts.
Import SharedTypes ExportResults.

Lemma find_downloadStates (repoStates : list VariantAnalysisScannedRepositoryState) (rid : N) :
  Wording.downloadStates repoStates !! rid
  = downloadStatus <$> List.find (fun r => repositoryId r =? rid) repoStates.
Proof.
  unfold Wording.downloadStates.
  induction repoStates as [|r rest IH]; simpl.
  - apply lookup_empty.
  - destruct (N.eqb_spec (repositoryId r) rid) as [->|Hne].
    + apply lookup_insert_eq.
    + rewrite lookup_insert_ne by exact Hne. exact IH.
Qed.

Lemma hasDownloadedResults_eligible
    (repoStates : list VariantAnalysisScannedRepositoryState)
    (repo : VariantAnalysisScannedRepository) :
  hasDownloadedResults repoStates repo = true <-> Wording.eligible repoStates repo.
Proof.
  unfold hasDownloadedResults, Wording.eligible.
  rewrite find_downloadStates, andb_true_iff.
  assert (Hcount : match resultCount repo with
                   | Some n => negb (n =? 0)
                   | None => false
                   end = true <-> exists n, resultCount repo = Some n /\ n <> 0).
  { destruct (resultCount repo) as [n|].
    - rewrite negb_true_iff, N.eqb_neq. split.
      + intros Hn. exists n. split; [reflexivity|exact Hn].
      + intros (m & Hm & Hne). injection Hm as ->. exact Hne.
    - split; [discriminate|]. intros (m & Hm & _). discriminate Hm. }
  assert (Hstate : match List.find (fun r => repositoryId r =? id (repository repo)) repoStates with
                   | Some r => bool_decide (downloadStatus r = DownloadSucceeded)
                   | None => false
                   end = true
                   <-> downloadStatus <$> List.find (fun r => repositoryId r =? id (repository repo)) repoStates
                       = Some DownloadSucceeded).
  { destruct (List.find _ repoStates) as [r|]; simpl.
    - rewrite bool_decide_eq_true. split; [congruence|].
      intros H. injection H as ->. reflexivity.
    - split; discriminate. }
  tauto.
Qed.

Lemma filter_sublist {A} (f : A -> bool) (l : list A) : sublist (List.filter f l) l.
Proof.
  induction l as [|x l IH]; simpl.
  - constructor.
  - destruct (f x); [apply sublist_skip|apply sublist_cons]; exact IH.
Qed.

(** C7.  The repositories selected for export are those of the list that
    the filter/sort criteria produce from the job's scanned repositories,
    in the same order, whose result count is non-zero and whose download
    state is Succeeded; when the criteria produce no list, nothing is
    selected.  The sort keys are the four of the drop-down. *)
Theorem selection_is_filtered_eligible
    {ScannedRepositoryResult Credentials FailureReason : Type}
    (env : @Env ScannedRepositoryResult Credentials FailureReason)
    (variantAnalysis : VariantAnalysis FailureReason)
    (filterSort : option FilterSort.RepositoriesFilterSortStateWithIds)
    (repoStates : list VariantAnalysisScannedRepositoryState) :
  match filterAndSortRepositoriesWithResults env (scannedRepos variantAnalysis) filterSort with
  | Some sorted =>
      exists selected,
        selectRepositories env variantAnalysis filterSort repoStates = Some selected /\
        sublist selected sorted /\
        forall repo, repo ∈ selected <-> repo ∈ sorted /\ Wording.eligible repoStates repo
  | None => selectRepositories env variantAnalysis filterSort repoStates = None
  end
  /\ forall k : FilterSort.SortKey,
       k ∈ [FilterSort.Name; FilterSort.ResultsCount; FilterSort.Stars; FilterSort.LastUpdated]
       /\ k ∈ map fst FilterSort.RepositoriesSort_options.
Proof.
  split.
  - unfold selectRepositories.
    destruct (filterAndSortRepositoriesWithResults env _ _) as [sorted|]; [|reflexivity].
    eexists. split; [reflexivity|]. split; [apply filter_sublist|].
    intros repo. rewrite !list_elem_of_In, filter_In, hasDownloadedResults_eligible.
    reflexivity.
  - intros k. destruct k; simpl; split; set_solver.
Qed.

(** Of the four repositories of the job of [Fixtures], the second has no
    result and the download of the third has failed. *)
Example selection_of_fixtures :
  (fun repos => map (fun r => id (repository r)) repos)
    <$> selectRepositories (Fixtures.env None) Fixtures.job None
          (getRepoStates Fixtures.manager 7)
  = Some [1; 4].
Proof. reflexivity. Qed.

End SelectionFacts.

(** ** The error handling of registered commands *)

Module CommandsFacts.
Import Effects Commands Traces.

Lemma handleError_run (hp : Helpers) (commandId : string) (e : Thrown) (h : list Event) :
  handleError hp commandId e h = (Return (asError hp e), h ++ [reportOf hp commandId e]).
Proof.
  unfold handleError, reportOf, bind.
  destruct e as [m [|]|d]; reflexivity.
Qed.

Lemma command_throws {A} (hp : Helpers) (host : Host) (commandId : string) (task : M A)
    (h0 h1 : list Event) (e : Thrown) :
  task h0 = (Throw e, h1) ->
  registerCommandWithErrorHandling hp host commandId task h0
  = (Return None,
     h1 ++ reportOf hp commandId e ::
           usageOf host commandId h0 (h1 ++ [reportOf hp commandId e])
                   (Some (asError hp e))).
Proof.
  intros Htask.
  unfold registerCommandWithErrorHandling, tryCatch, bind, observe, usageOf.
  rewrite Htask. simpl. rewrite handleError_run. simpl.
  destruct (telemetryListener host); simpl.
  - rewrite <- List.app_assoc. reflexivity.
  - reflexivity.
Qed.

Lemma command_returns {A} (hp : Helpers) (host : Host) (commandId : string) (task : M A)
    (h0 h1 : list Event) (v : A) :
  task h0 = (Return v, h1) ->
  registerCommandWithErrorHandling hp host commandId task h0
  = (Return (Some v), h1 ++ usageOf host commandId h0 h1 None).
Proof.
  intros Htask.
  unfold registerCommandWithErrorHandling, tryCatch, bind, observe, usageOf.
  rewrite Htask. simpl.
  destruct (telemetryListener host); simpl; [reflexivity|].
  rewrite app_nil_r. reflexivity.
Qed.

Lemma usage_is_no_report (host : Host) (commandId : string) (h0 h : list Event)
    (error : option Thrown) :
  Forall (fun ev => isErrorReport ev = false /\ isWarning ev = false)
         (usageOf host commandId h0 h error).
Proof. unfold usageOf. destruct (telemetryListener host); repeat constructor. Qed.

(** C9.  When the task of a registered command throws, the command
    returns [undefined] and makes exactly one report: a line in the log
    for a silent user cancellation, a warning message for an interactive
    one, and show-and-log-exception-with-telemetry for any other error;
    a cancellation never goes through the latter.  (The command-usage
    record that every invocation sends follows when the telemetry
    listener is defined.)  When the task returns, so does the command,
    with no report. *)
Theorem cancellation_is_not_reported_as_error {A}
    (hp : Helpers) (host : Host) (commandId : string) (task : M A)
    (h0 : list Event) :
  match task h0 with
  | (Throw e, h1) =>
      registerCommandWithErrorHandling hp host commandId task h0
      = (Return None,
         h1 ++ reportOf hp commandId e ::
               usageOf host commandId h0 (h1 ++ [reportOf hp commandId e])
                       (Some (asError hp e)))
      /\ match e with
         | UserCancellationException _ silent =>
             isErrorReport (reportOf hp commandId e) = false /\
             isWarning (reportOf hp commandId e) = negb silent /\
             (silent = true -> exists msg, reportOf hp commandId e = Log msg)
         | OtherError _ => isErrorReport (reportOf hp commandId e) = true
         end
      /\ Forall (fun ev => isErrorReport ev = false /\ isWarning ev = false)
                (usageOf host commandId h0 (h1 ++ [reportOf hp commandId e])
                         (Some (asError hp e)))
  | (Return v, h1) =>
      registerCommandWithErrorHandling hp host commandId task h0
      = (Return (Some v), h1 ++ usageOf host commandId h0 h1 None)
  end.
Proof.
  destruct (task h0) as [[v|e] h1] eqn:Htask.
  - apply command_returns. exact Htask.
  - split; [apply command_throws; exact Htask|].
    split; [|apply usage_is_no_report].
    destruct e as [m [|]|d]; simpl; auto.
    + split; [reflexivity|]. split; [reflexivity|]. intros _. eexists. reflexivity.
    + split; [reflexivity|]. split; [reflexivity|]. intros H. discriminate H.
Qed.

Example silent_cancellation_is_logged :
  registerCommandWithErrorHandling Fixtures.helpers Fixtures.host "codeQL.export"
    (throw (A := unit) (UserCancellationException "No export format selected" true)) []
  = (Return None,
     [ Log "No export format selected (codeQL.export)";
       SendCommandUsage "codeQL.export" 1
         (Some (UserCancellationException "No export format selected" true)) ]).
Proof. reflexivity. Qed.

Example interactive_cancellation_is_a_warning :
  registerCommandWithErrorHandling Fixtures.helpers Fixtures.host "codeQL.export"
    (throw (A := unit) (UserCancellationException "Cancelled" false)) []
  = (Return None,
     [ ShowAndLogWarningMessage "Cancelled (codeQL.export)";
       SendCommandUsage "codeQL.export" 1
         (Some (UserCancellationException "Cancelled" false)) ]).
Proof. reflexivity. Qed.

Example other_error_is_an_exception_report :
  registerCommandWithErrorHandling Fixtures.helpers Fixtures.host "codeQL.export"
    (throw (A := unit) (OtherError "boom")) []
  = (Return None,
     [ ShowAndLogExceptionWithTelemetry "boom (codeQL.export)" "boom (codeQL.export)"
         "codeQL.export";
       SendCommandUsage "codeQL.export" 1 (Some (OtherError "boom")) ]).
Proof. reflexivity. Qed.

End CommandsFacts.

(** ** Dismissing the format picker *)

Module FormatFacts.
Import Effects SharedTypes ExportResults Traces.

Section WithTypes.
Context {ScannedRepositoryResult Credentials FailureReason : Type}.
Implicit Types (env : @Env ScannedRepositoryResult Credentials FailureReason).
Implicit Types (mgr : @VariantAnalysisManager ScannedRepositoryResult FailureReason).

Lemma determineExportFormat_history env (h : list Event) :
  snd (determineExportFormat env h) = h ++ [pickerShown].
Proof.
  unfold determineExportFormat, bind, call. simpl.
  destruct (showQuickPick env _) as [picked|]; [|reflexivity].
  repeat (case_decide; try reflexivity).
Qed.

Lemma determineExportFormat_dismissed env (h : list Event) :
  showQuickPick env [gistOption; localMarkdownOption] = None ->
  determineExportFormat env h
  = (Throw (UserCancellationException "No export format selected" true),
     h ++ [pickerShown]).
Proof.
  intros Hpick. unfold determineExportFormat, bind, call. simpl.
  rewrite Hpick. reflexivity.
Qed.

Lemma determineExportFormat_local env (h : list Event) :
  showQuickPick env [gistOption; localMarkdownOption] = Some localMarkdownOption ->
  determineExportFormat env h = (Return (Some local), h ++ [pickerShown]).
Proof.
  intros Hpick. unfold determineExportFormat, bind, call. simpl.
  rewrite Hpick. reflexivity.
Qed.

(** The export, run up to the answer of the format picker. *)
Lemma export_run env mgr (variantAnalysisId : N)
    (filterSort : option FilterSort.RepositoriesFilterSortStateWithIds)
    (credentials : Credentials) (variantAnalysis : VariantAnalysis FailureReason)
    (h0 : list Event) :
  getVariantAnalysis mgr variantAnalysisId = Some variantAnalysis ->
  isCancellationRequested (token env)
    (h0 ++ [WithProgress "Exporting variant analysis results" true]) = false ->
  exportVariantAnalysisResults env mgr variantAnalysisId filterSort credentials h0
  = match determineExportFormat env (beforePicker h0 variantAnalysis) with
    | (Throw e, h1) => (Throw e, h1)
    | (Return None, h1) => (Return tt, h1)
    | (Return (Some format), h1) =>
        afterFormat env mgr variantAnalysisId variantAnalysis filterSort credentials
                    format h1
    end.
Proof.
  intros Hva Htok.
  cbv beta iota zeta delta [exportVariantAnalysisResults withProgress throwIfCancelled
                            progress bind emit ret throw observe afterFormat beforePicker
                            MAX_VARIANT_ANALYSIS_EXPORT_PROGRESS_STEPS].
  rewrite Hva. cbv beta iota zeta. rewrite Htok. cbv beta iota zeta.
  repeat rewrite <- List.app_assoc. cbn [app].
  destruct (determineExportFormat env _) as [[[fmt|]|e] h1]; reflexivity.
Qed.

(** C10.  When the user dismisses the format picker, the export throws
    a user cancellation whose silent flag is set, having shown nothing
    after the picker; run as a registered command, the command returns
    [undefined] and only writes a line to the log, so that no warning is
    shown.  When the format resolution returns no format, the export
    returns at that point: no progress step, rendering or writing
    follows the picker. *)
Theorem dismissed_picker_is_silent env mgr
    (hp : Commands.Helpers) (host : Commands.Host) (commandId : string)
    (variantAnalysisId : N)
    (filterSort : option FilterSort.RepositoriesFilterSortStateWithIds)
    (credentials : Credentials) (variantAnalysis : VariantAnalysis FailureReason)
    (h0 : list Event) :
  getVariantAnalysis mgr variantAnalysisId = Some variantAnalysis ->
  isCancellationRequested (token env)
    (h0 ++ [WithProgress "Exporting variant analysis results" true]) = false ->
  let export :=
    exportVariantAnalysisResults env mgr variantAnalysisId filterSort credentials in
  let cancellation := UserCancellationException "No export format selected" true in
  (showQuickPick env [gistOption; localMarkdownOption] = None ->
   export h0 = (Throw cancellation, upToPicker h0 variantAnalysis) /\
   exists msg,
     let usage :=
       usageOf host commandId h0
         (upToPicker h0 variantAnalysis ++ [Log msg])
         (Some (Commands.asError hp cancellation)) in
     Commands.registerCommandWithErrorHandling hp host commandId export h0
     = (Return None, upToPicker h0 variantAnalysis ++ Log msg :: usage) /\
     Forall (fun ev => isWarning ev = false) (Log msg :: usage))
  /\
  (fst (determineExportFormat env (beforePicker h0 variantAnalysis)) = Return None ->
   export h0 = (Return tt, upToPicker h0 variantAnalysis)).
Proof.
  intros Hva Htok export cancellation.
  pose proof (export_run env mgr variantAnalysisId filterSort credentials
                variantAnalysis h0 Hva Htok) as Hrun.
  fold export in Hrun.
  split.
  - intros Hpick.
    rewrite (determineExportFormat_dismissed env _ Hpick) in Hrun.
    fold cancellation in Hrun. fold (upToPicker h0 variantAnalysis) in Hrun.
    split; [exact Hrun|].
    eexists. cbv zeta.
    rewrite (CommandsFacts.command_throws hp host commandId export _ _ _ Hrun).
    split; [reflexivity|].
    constructor; [reflexivity|].
    eapply Forall_impl; [apply CommandsFacts.usage_is_no_report|].
    intros ev [_ Hw]. exact Hw.
  - intros Hnone. rewrite Hrun.
    pose proof (determineExportFormat_history env (beforePicker h0 variantAnalysis)) as Hh.
    destruct (determineExportFormat env _) as [out h1].
    simpl in Hnone, Hh. subst out h1. reflexivity.
Qed.

End WithTypes.

(** The dismissed picker and a picked item that is neither option, on
    the concrete host. *)
Lemma dismissed_picker_is_silent_witness :
  exportVariantAnalysisResults (Fixtures.env None) Fixtures.manager 7 None tt []
  = (Throw (UserCancellationException "No export format selected" true),
     upToPicker [] Fixtures.job)
  /\ exportVariantAnalysisResults
       (Fixtures.env (Some {| itemRef := 2; label := "Other" |}))
       Fixtures.manager 7 None tt []
     = (Return tt, upToPicker [] Fixtures.job).
Proof.
  split.
  - apply (dismissed_picker_is_silent (Fixtures.env None) Fixtures.manager
             Fixtures.helpers Fixtures.host "codeQL.exportVariantAnalysisResults"
             7 None tt Fixtures.job []); reflexivity.
  - apply (dismissed_picker_is_silent
             (Fixtures.env (Some {| itemRef := 2; label := "Other" |})) Fixtures.manager
             Fixtures.helpers Fixtures.host "codeQL.exportVariantAnalysisResults"
             7 None tt Fixtures.job []); reflexivity.
Defined.

End FormatFacts.

(** ** The lazy sequence of results *)

Module SequenceFacts.
Import Effects SharedTypes ExportResults Traces.

Section WithTypes.
Context {ScannedRepositoryResult FailureReason : Type}.
Implicit Types (mgr : @VariantAnalysisManager ScannedRepositoryResult FailureReason).

Lemma next_loads_one mgr (variantAnalysis : VariantAnalysis FailureReason)
    (repositories : option (list VariantAnalysisScannedRepository))
    (repo : VariantAnalysisScannedRepository)
    (rest : list VariantAnalysisScannedRepository) (h : list Event) :
  iter_next (getAnalysesResults mgr variantAnalysis repositories) (repo :: rest) h
  = match loadResults mgr (va_id variantAnalysis) (fullName (repository repo)) true with
    | Return result =>
        (Return (Some ((repo, result), rest)), h ++ [loadOf variantAnalysis repo])
    | Throw e => (Throw e, h ++ [loadOf variantAnalysis repo])
    end.
Proof.
  simpl. unfold bind, call, loadOf.
  destruct (loadResults mgr _ _ _); reflexivity.
Qed.

Lemma take_items_run mgr (variantAnalysis : VariantAnalysis FailureReason)
    (repositories : option (list VariantAnalysisScannedRepository))
    (res : VariantAnalysisScannedRepository -> ScannedRepositoryResult) (k : nat) :
  forall (remaining : list VariantAnalysisScannedRepository) (h : list Event),
  (forall repo, repo ∈ take k remaining ->
     loadResults mgr (va_id variantAnalysis) (fullName (repository repo)) true
     = Return (res repo)) ->
  take_items (getAnalysesResults mgr variantAnalysis repositories) k remaining h
  = (Return (map (fun repo => (repo, res repo)) (take k remaining)),
     h ++ map (loadOf variantAnalysis) (take k remaining)).
Proof.
  induction k as [|k IH]; intros remaining h Hload.
  - simpl. unfold ret. rewrite app_nil_r. reflexivity.
  - destruct remaining as [|repo rest].
    + simpl. unfold bind, ret. rewrite app_nil_r. reflexivity.
    + cbn [take_items]. unfold bind at 1.
      rewrite next_loads_one, Hload by (simpl; left).
      unfold bind at 1. rewrite IH.
      * unfold ret. simpl. rewrite <- List.app_assoc. reflexivity.
      * intros r Hr. apply Hload. simpl. right. exact Hr.
Qed.

(** C8.  The sequence of (repository, result) pairs is produced one
    repository at a time: a consumer that has asked for [k] items has
    caused exactly the loads of the first [k] selected repositories, in
    the order of the selection, one call of [loadResults] each with the
    job id, the repository's full name and [skipCacheStore] set, and has
    received their pairs; each [next()] makes one load and leaves the
    rest of the selection unvisited; after the last repository, or when
    nothing is selected, the sequence ends without a load. *)
Theorem results_are_loaded_one_at_a_time mgr
    (variantAnalysis : VariantAnalysis FailureReason)
    (repositories : list VariantAnalysisScannedRepository)
    (res : VariantAnalysisScannedRepository -> ScannedRepositoryResult)
    (k : nat) (h : list Event) :
  (forall repo, repo ∈ take k repositories ->
     loadResults mgr (va_id variantAnalysis) (fullName (repository repo)) true
     = Return (res repo)) ->
  let results := getAnalysesResults mgr variantAnalysis (Some repositories) in
  iter_start results = repositories
  /\ take_items results k (iter_start results) h
     = (Return (map (fun repo => (repo, res repo)) (take k repositories)),
        h ++ map (loadOf variantAnalysis) (take k repositories))
  /\ (forall repo rest,
        repositories !! k = Some repo -> rest = drop (S k) repositories ->
        iter_next results (repo :: rest)
                  (h ++ map (loadOf variantAnalysis) (take k repositories))
        = match loadResults mgr (va_id variantAnalysis) (fullName (repository repo)) true with
          | Return result =>
              (Return (Some ((repo, result), rest)),
               h ++ map (loadOf variantAnalysis) (take (S k) repositories))
          | Throw e =>
              (Throw e, h ++ map (loadOf variantAnalysis) (take (S k) repositories))
          end)
  /\ iter_next results [] h = (Return None, h)
  /\ iter_start (getAnalysesResults mgr variantAnalysis None) = [].
Proof.
  intros Hload results.
  split; [reflexivity|].
  split; [apply take_items_run; exact Hload|].
  split; [|split; reflexivity].
  intros repo rest Hk ->.
  unfold results. rewrite next_loads_one.
  rewrite (take_S_r _ _ _ Hk), map_app, List.app_assoc. simpl.
  reflexivity.
Qed.

End WithTypes.

(** Two pulls on a selection of three repositories: two loads. *)
Lemma results_are_loaded_one_at_a_time_witness :
  take_items
    (getAnalysesResults Fixtures.manager Fixtures.job
       (Some [Fixtures.repo 1 "octo/a" (Some 3); Fixtures.repo 4 "octo/d" (Some 1);
              Fixtures.repo 5 "octo/e" (Some 2)]))
    2
    [Fixtures.repo 1 "octo/a" (Some 3); Fixtures.repo 4 "octo/d" (Some 1);
     Fixtures.repo 5 "octo/e" (Some 2)]
    []
  = (Return [ (Fixtures.repo 1 "octo/a" (Some 3), ["results of octo/a"]);
              (Fixtures.repo 4 "octo/d" (Some 1), ["results of octo/d"]) ],
     [ LoadResults 7 "octo/a" true; LoadResults 7 "octo/d" true ]).
Proof.
  apply (results_are_loaded_one_at_a_time Fixtures.manager Fixtures.job
           [Fixtures.repo 1 "octo/a" (Some 3); Fixtures.repo 4 "octo/d" (Some 1);
            Fixtures.repo 5 "octo/e" (Some 2)]
           (fun repo => ["results of " +:+ fullName (repository repo)]) 2 []).
  intros repo _. reflexivity.
Defined.

End SequenceFacts.

(** ** The timestamp of the destination directory *)

Module TimestampFacts.
Import JsDate.

Lemma app_String (x : ascii) (a b : string) : String x a +:+ b = String x (a +:+ b).
Proof. reflexivity. Qed.

Lemma app_Empty (b : string) : EmptyString +:+ b = b.
Proof. reflexivity. Qed.

Lemma string_app_assoc (a b c : string) : (a +:+ b) +:+ c = a +:+ (b +:+ c).
Proof.
  induction a as [|x a IH]; [reflexivity|].
  rewrite !app_String, IH. reflexivity.
Qed.

Lemma string_app_nil_r (a : string) : a +:+ EmptyString = a.
Proof.
  induction a as [|x a IH]; [reflexivity|].
  rewrite app_String, IH. reflexivity.
Qed.

Lemma string_app_length (a b : string) :
  String.length (a +:+ b) = (String.length a + String.length b)%nat.
Proof.
  induction a as [|x a IH]; [reflexivity|].
  rewrite app_String. cbn [String.length]. rewrite IH. reflexivity.
Qed.

Lemma repeat0_length (k : nat) : String.length (repeat0 k) = k.
Proof. induction k as [|k IH]; cbn; [reflexivity|]. f_equal. exact IH. Qed.

Lemma repeat0_snoc (k : nat) : repeat0 k +:+ "0" = repeat0 (S k).
Proof.
  induction k as [|k IH]; [reflexivity|].
  cbn [repeat0]. rewrite app_String, IH. reflexivity.
Qed.

Lemma digits_zero (w : nat) : Wording.digits w 0 = repeat0 w.
Proof.
  induction w as [|w IH]; [reflexivity|].
  cbn [Wording.digits]. change (0 / 10) with 0. rewrite IH.
  change (String (pretty_N_char (0 mod 10)) EmptyString) with "0".
  apply repeat0_snoc.
Qed.

(** The digits that [pretty] prints are the low digits without the
    leading zeros. *)
Lemma pretty_go_digits (w : nat) :
  forall (n : N) (s : string),
    n < 10 ^ N.of_nat w ->
    exists z : nat,
      (z <= w)%nat /\
      Wording.digits w n +:+ s = repeat0 z +:+ pretty_N_go n s /\
      String.length (pretty_N_go n s) = (w - z + String.length s)%nat.
Proof.
  induction w as [|w IH]; intros n s Hn.
  - assert (n = 0) as -> by (simpl in Hn; lia).
    exists 0%nat. rewrite pretty_N_go_0. simpl. auto.
  - destruct (N.eq_dec n 0) as [->|Hpos].
    + exists (S w). rewrite pretty_N_go_0, digits_zero.
      split; [lia|]. split; [reflexivity|]. lia.
    + rewrite pretty_N_go_step by lia.
      destruct (IH (n / 10) (String (pretty_N_char (n mod 10)) s)) as (z & Hz & Heq & Hlen).
      { apply N.Div0.div_lt_upper_bound.
        rewrite Nat2N.inj_succ, N.pow_succ_r' in Hn. exact Hn. }
      exists z. split; [lia|]. split.
      * cbn [Wording.digits]. rewrite string_app_assoc. exact Heq.
      * rewrite Hlen. simpl. lia.
Qed.

Lemma padStart_pretty (w : nat) (n : N) :
  (1 <= w)%nat -> n < 10 ^ N.of_nat w ->
  padStart w (pretty n) = Wording.digits w n.
Proof.
  intros Hw Hn. unfold padStart, pretty, pretty_N.
  destruct (decide (n = 0)) as [->|Hpos].
  - rewrite digits_zero. simpl String.length.
    destruct w as [|w]; [lia|].
    replace (S w - 1)%nat with w by lia. apply repeat0_snoc.
  - destruct (pretty_go_digits w n EmptyString Hn) as (z & Hz & Heq & Hlen).
    rewrite Hlen. simpl String.length.
    replace (w - (w - z + 0))%nat with z by lia.
    rewrite <- Heq. apply string_app_nil_r.
Qed.

Lemma isDigit_pretty_N_char (n : N) : isDigit (pretty_N_char n) = true.
Proof. unfold pretty_N_char. repeat case_match; reflexivity. Qed.

Lemma allDigits_app (a b : string) :
  Wording.allDigits (a +:+ b) = Wording.allDigits a && Wording.allDigits b.
Proof.
  induction a as [|x a IH]; [reflexivity|].
  rewrite app_String. cbn [Wording.allDigits]. rewrite IH, andb_assoc. reflexivity.
Qed.

Lemma allDigits_digits (w : nat) (n : N) : Wording.allDigits (Wording.digits w n) = true.
Proof.
  revert n. induction w as [|w IH]; intros n; [reflexivity|].
  cbn [Wording.digits]. rewrite allDigits_app, IH. simpl.
  rewrite isDigit_pretty_N_char. reflexivity.
Qed.

Lemma digits_length (w : nat) (n : N) : String.length (Wording.digits w n) = w.
Proof.
  revert n. induction w as [|w IH]; intros n; [reflexivity|].
  cbn [Wording.digits]. rewrite string_app_length, IH. simpl. lia.
Qed.

Lemma digit_is_plain (c : ascii) :
  isDigit c = true ->
  Ascii.eqb c "-" = false /\ Ascii.eqb c ":" = false /\ Ascii.eqb c "." = false.
Proof.
  destruct c as [[] [] [] [] [] [] [] []]; intros H;
    try discriminate H; repeat split; reflexivity.
Qed.

Lemma removeDashesAndColons_app (a b : string) :
  removeDashesAndColons (a +:+ b) = removeDashesAndColons a +:+ removeDashesAndColons b.
Proof.
  induction a as [|x a IH]; [reflexivity|].
  rewrite app_String. cbn [removeDashesAndColons].
  destruct (Ascii.eqb x "-" || Ascii.eqb x ":"); [exact IH|].
  rewrite app_String, IH. reflexivity.
Qed.

Lemma removeDashesAndColons_digits (s : string) :
  Wording.allDigits s = true -> removeDashesAndColons s = s.
Proof.
  induction s as [|x s IH]; [reflexivity|].
  cbn [Wording.allDigits removeDashesAndColons].
  intros [Hx Hs]%andb_true_iff.
  destruct (digit_is_plain x Hx) as (-> & -> & _).
  rewrite (IH Hs). reflexivity.
Qed.

Lemma replaceFraction_digits_app (p q : string) :
  Wording.allDigits p = true -> replaceFraction (p +:+ q) = p +:+ replaceFraction q.
Proof.
  induction p as [|x p IH]; [reflexivity|].
  cbn [Wording.allDigits]. intros [Hx Hp]%andb_true_iff.
  rewrite !app_String. cbn [replaceFraction].
  destruct (digit_is_plain x Hx) as (_ & _ & ->).
  rewrite (IH Hp). reflexivity.
Qed.

Lemma digitsThenZ_digits (ds : string) :
  Wording.allDigits ds = true -> digitsThenZ (ds +:+ "Z") = true.
Proof.
  induction ds as [|x ds IH]; [reflexivity|].
  cbn [Wording.allDigits]. intros [Hx Hds]%andb_true_iff.
  rewrite app_String. cbn [digitsThenZ]. rewrite Hx. exact (IH Hds).
Qed.

Lemma replaceFraction_fraction (x : ascii) (ds : string) :
  isDigit x = true -> Wording.allDigits ds = true ->
  replaceFraction ("." +:+ String x ds +:+ "Z") = "Z".
Proof.
  intros Hx Hds.
  change ("." +:+ String x ds +:+ "Z") with (String "." (String x (ds +:+ "Z"))).
  cbn [replaceFraction]. rewrite Hx, (digitsThenZ_digits ds Hds). reflexivity.
Qed.

(** The formatted date of a valid time is its compact ISO form. *)
Lemma formattedDate_compact (d : Date) :
  Wording.validDate d ->
  ExportResults.formattedDate d = Wording.compactTimestamp d.
Proof.
  intros (Hy & Hmo & Hd & Hh & Hmi & Hs & Hms).
  unfold ExportResults.formattedDate, toISOString, isoYear, pad2, pad3.
  destruct (decide (0 <= year d <= 9999)%Z) as [_|Hn]; [|contradiction].
  rewrite !padStart_pretty by (cbn; lia).
  rewrite !removeDashesAndColons_app.
  rewrite !(removeDashesAndColons_digits (Wording.digits _ _)) by apply allDigits_digits.
  change (removeDashesAndColons "-") with EmptyString.
  change (removeDashesAndColons ":") with EmptyString.
  change (removeDashesAndColons "T") with "T".
  change (removeDashesAndColons ".") with ".".
  change (removeDashesAndColons "Z") with "Z".
  rewrite !app_Empty.
  unfold Wording.compactTimestamp.
  rewrite !replaceFraction_digits_app by apply allDigits_digits.
  rewrite app_String, app_Empty.
  change (replaceFraction (String "T" ?x)) with (String "T" (replaceFraction x)).
  do 3 f_equal. rewrite app_String, app_Empty. f_equal.
  rewrite !replaceFraction_digits_app by apply allDigits_digits.
  do 3 f_equal.
  cbn [Wording.digits]. rewrite app_Empty, !app_String, !app_Empty.
  apply replaceFraction_fraction.
  - apply isDigit_pretty_N_char.
  - rewrite app_String, app_Empty. cbn [Wording.allDigits].
    rewrite !isDigit_pretty_N_char. reflexivity.
Qed.

Lemma compactTimestamp_shape (d : Date) :
  Wording.isCompactTimestamp (Wording.compactTimestamp d) = true.
Proof.
  unfold Wording.compactTimestamp.
  cbv [Wording.digits String.append].
  unfold Wording.isCompactTimestamp.
  cbn [String.length substring Wording.allDigits Nat.eqb String.eqb].
  rewrite !isDigit_pretty_N_char. reflexivity.
Qed.

End TimestampFacts.

(** ** Export to local Markdown files *)

Module LocalExportFacts.
Import Effects SharedTypes ExportResults Traces FormatFacts.

Section WithTypes.
Context {ScannedRepositoryResult Credentials FailureReason : Type}.
Implicit Types (env : @Env ScannedRepositoryResult Credentials FailureReason).
Implicit Types (mgr : @VariantAnalysisManager ScannedRepositoryResult FailureReason).

Lemma writeMarkdownFiles_run env (dir : string)
    (files : list MarkdownGeneration.MarkdownFile) :
  forall h : list Event,
  (forall f, f ∈ files ->
     writeFile env (join env [dir; MarkdownGeneration.fileName f +:+ ".md"])
               (joinLines (MarkdownGeneration.content f)) "utf8" = Return tt) ->
  writeMarkdownFiles env dir files h = (Return tt, h ++ map (writeOf env dir) files).
Proof.
  induction files as [|f rest IH]; intros h Hwrite.
  - simpl. unfold ret. rewrite app_nil_r. reflexivity.
  - cbn [writeMarkdownFiles]. unfold bind at 1, call at 1.
    rewrite Hwrite by left.
    rewrite IH by (intros g Hg; apply Hwrite; right; exact Hg).
    simpl. rewrite <- List.app_assoc. reflexivity.
Qed.

Lemma exportToLocalMarkdown_run env (dir : string)
    (files : list MarkdownGeneration.MarkdownFile) (h : list Event) :
  isCancellationRequested (token env) h = false ->
  ensureDir env dir = Return tt ->
  (forall f, f ∈ files ->
     writeFile env (join env [dir; MarkdownGeneration.fileName f +:+ ".md"])
               (joinLines (MarkdownGeneration.content f)) "utf8" = Return tt) ->
  exportToLocalMarkdown env dir files (Some (token env)) h
  = (Return tt, h ++ localWrites env dir files).
Proof.
  intros Htok Hdir Hwrite.
  cbv beta iota zeta delta [exportToLocalMarkdown throwIfCancelled progress bind emit
                            ret throw observe call
                            MAX_VARIANT_ANALYSIS_EXPORT_PROGRESS_STEPS].
  rewrite Htok, Hdir. cbv beta iota zeta.
  rewrite (writeMarkdownFiles_run env dir files _ Hwrite).
  unfold localWrites. repeat rewrite <- List.app_assoc. reflexivity.
Qed.

(** A local export, from the answer of the picker to the end. *)
Lemma afterFormat_local_run env mgr (variantAnalysisId : N)
    (variantAnalysis : VariantAnalysis FailureReason)
    (filterSort : option FilterSort.RepositoriesFilterSortStateWithIds)
    (credentials : Credentials)
    (files : list MarkdownGeneration.MarkdownFile)
    (summaries : list MarkdownGeneration.RepositorySummary)
    (h1 hRendered : list Event) :
  (forall h, isCancellationRequested (token env) h = false) ->
  let repositories :=
    selectRepositories env variantAnalysis filterSort (getRepoStates mgr variantAnalysisId) in
  generateVariantAnalysisMarkdown env variantAnalysis
    (getAnalysesResults mgr variantAnalysis repositories)
    (match repositories with Some repos => length repos | None => 0%nat end)
    local (h1 ++ [Progress 2 1 "Generating Markdown files"])
  = (Return (files, summaries), hRendered) ->
  afterFormat env mgr variantAnalysisId variantAnalysis filterSort credentials local h1
  = exportToLocalMarkdown env
      (exportedResultsDirectory env
         (getVariantAnalysisStorageLocation mgr (va_id variantAnalysis))
         (newDate env h1))
      files (Some (token env)) hRendered.
Proof.
  intros Htok repositories Hrender.
  cbv beta iota zeta delta [afterFormat exportVariantAnalysisAnalysisResults exportResults
                            throwIfCancelled progress bind emit ret throw observe
                            MAX_VARIANT_ANALYSIS_EXPORT_PROGRESS_STEPS].
  rewrite !Htok. cbv beta iota zeta.
  fold repositories. rewrite Hrender. cbv beta iota zeta.
  rewrite Htok. reflexivity.
Qed.

(** C6.  A local export writes the rendered files under the directory
    whose last two path components are [exported-results] and
    [results_<timestamp>], the timestamp being the UTC time of the export
    in compact ISO form (eight digits, a [T], six digits, a [Z]: the
    dashes, the colons and the fraction of a second are gone).  After the
    rendering the export ensures that the directory exists and then
    writes, for each rendered file and in their order, the file
    [<fileName>.md] in UTF-8 with the content lines joined by newlines;
    a rendered [_summary] is written as [_summary.md]. *)
Theorem local_export_writes_under_timestamped_directory env mgr
    (variantAnalysisId : N)
    (filterSort : option FilterSort.RepositoriesFilterSortStateWithIds)
    (credentials : Credentials) (variantAnalysis : VariantAnalysis FailureReason)
    (files : list MarkdownGeneration.MarkdownFile)
    (summaries : list MarkdownGeneration.RepositorySummary)
    (h0 hRendered : list Event) :
  getVariantAnalysis mgr variantAnalysisId = Some variantAnalysis ->
  (forall h, isCancellationRequested (token env) h = false) ->
  showQuickPick env [gistOption; localMarkdownOption] = Some localMarkdownOption ->
  let date := newDate env (upToPicker h0 variantAnalysis) in
  Wording.validDate date ->
  let repositories :=
    selectRepositories env variantAnalysis filterSort (getRepoStates mgr variantAnalysisId) in
  generateVariantAnalysisMarkdown env variantAnalysis
    (getAnalysesResults mgr variantAnalysis repositories)
    (match repositories with Some repos => length repos | None => 0%nat end)
    local (upToPicker h0 variantAnalysis ++ [Progress 2 1 "Generating Markdown files"])
  = (Return (files, summaries), hRendered) ->
  let dir :=
    join env [ getVariantAnalysisStorageLocation mgr (va_id variantAnalysis);
               "exported-results";
               "results_" +:+ Wording.compactTimestamp date ] in
  ensureDir env dir = Return tt ->
  (forall f, f ∈ files ->
     writeFile env (join env [dir; MarkdownGeneration.fileName f +:+ ".md"])
               (joinLines (MarkdownGeneration.content f)) "utf8" = Return tt) ->
  exportVariantAnalysisResults env mgr variantAnalysisId filterSort credentials h0
  = (Return tt,
     hRendered
     ++ [ Progress 2 2 "Creating local Markdown files"; EnsureDir dir ]
     ++ map (fun f => WriteFile (join env [dir; MarkdownGeneration.fileName f +:+ ".md"])
                                (joinLines (MarkdownGeneration.content f)) "utf8") files
     ++ [ ShowInformationMessageWithAction
            ("Variant analysis results exported to " +:+ quote +:+ dir +:+ quote +:+ ".")
            "Open exported results" ])
  /\ formattedDate date = Wording.compactTimestamp date
  /\ Wording.isCompactTimestamp (formattedDate date) = true
  /\ forall f, f ∈ files -> MarkdownGeneration.fileName f = "_summary" ->
       WriteFile (join env [dir; "_summary.md"])
                 (joinLines (MarkdownGeneration.content f)) "utf8"
       ∈ snd (exportVariantAnalysisResults env mgr variantAnalysisId filterSort
                credentials h0).
Proof.
  intros Hva Htok Hpick date Hdate repositories Hrender dir Hdir Hwrite.
  pose proof (TimestampFacts.formattedDate_compact date Hdate) as Hts.
  assert (Hrun :
    exportVariantAnalysisResults env mgr variantAnalysisId filterSort credentials h0
    = (Return tt, hRendered ++ localWrites env dir files)).
  { rewrite (export_run env mgr variantAnalysisId filterSort credentials
               variantAnalysis h0 Hva (Htok _)).
    rewrite (determineExportFormat_local env _ Hpick).
    fold (upToPicker h0 variantAnalysis).
    rewrite (afterFormat_local_run env mgr variantAnalysisId variantAnalysis filterSort
               credentials files summaries _ hRendered Htok Hrender).
    fold date. unfold exportedResultsDirectory. rewrite Hts. fold dir.
    apply exportToLocalMarkdown_run; [apply Htok|exact Hdir|exact Hwrite]. }
  split; [exact Hrun|].
  split; [exact Hts|].
  split; [rewrite Hts; apply TimestampFacts.compactTimestamp_shape|].
  intros f Hf Hname. rewrite Hrun. cbn [snd]. unfold localWrites.
  apply elem_of_app. right. apply elem_of_app. right. apply elem_of_app. left.
  apply list_elem_of_fmap. exists f. split; [|exact Hf].
  unfold writeOf. rewrite Hname. reflexivity.
Qed.

End WithTypes.

Example formattedDate_20221115 :
  formattedDate Fixtures.date20221115 = "20221115T123456Z".
Proof. vm_compute. reflexivity. Qed.

(** The export of the job of [Fixtures] on 2022-11-15 at 12:34:56.789 UTC. *)
Lemma local_export_writes_under_timestamped_directory_witness :
  let dir := "/storage/7/exported-results/results_20221115T123456Z" in
  exportVariantAnalysisResults (Fixtures.env (Some localMarkdownOption))
    Fixtures.manager 7 None tt []
  = (Return tt,
     [ WithProgress "Exporting variant analysis results" true;
       Log "Exporting variant analysis results for variant analysis with id 7";
       Progress 2 0 "Determining export format";
       pickerShown;
       Progress 2 1 "Generating Markdown files";
       LoadResults 7 "octo/a" true;
       LoadResults 7 "octo/d" true;
       Progress 2 2 "Creating local Markdown files";
       EnsureDir dir;
       WriteFile (dir +:+ "/octo/a.md") "results of octo/a" "utf8";
       WriteFile (dir +:+ "/octo/d.md") "results of octo/d" "utf8";
       WriteFile (dir +:+ "/_summary.md") "# Summary" "utf8";
       ShowInformationMessageWithAction
         ("Variant analysis results exported to " +:+ quote +:+ dir +:+ quote +:+ ".")
         "Open exported results" ]).
Proof.
  refine (proj1 (local_export_writes_under_timestamped_directory
                   (Fixtures.env (Some localMarkdownOption)) Fixtures.manager 7 None tt
                   Fixtures.job
                   [ {| MarkdownGeneration.fileName := "octo/a";
                        MarkdownGeneration.content := ["results of octo/a"] |};
                     {| MarkdownGeneration.fileName := "octo/d";
                        MarkdownGeneration.content := ["results of octo/d"] |};
                     {| MarkdownGeneration.fileName := "_summary";
                        MarkdownGeneration.content := ["# Summary"] |} ]
                   [ {| MarkdownGeneration.summaryFileName := "octo/a";
                        MarkdownGeneration.resultCount := Some 3 |};
                     {| MarkdownGeneration.summaryFileName := "octo/d";
                        MarkdownGeneration.resultCount := Some 1 |} ]
                   []
                   [ WithProgress "Exporting variant analysis results" true;
                     Log "Exporting variant analysis results for variant analysis with id 7";
                     Progress 2 0 "Determining export format";
                     pickerShown;
                     Progress 2 1 "Generating Markdown files";
                     LoadResults 7 "octo/a" true;
                     LoadResults 7 "octo/d" true ]
                   _ _ _ _ _ _ _)).
  - reflexivity.
  - intros h. reflexivity.
  - reflexivity.
  - unfold Wording.validDate. simpl. lia.
  - vm_compute. reflexivity.
  - reflexivity.
  - intros f _. reflexivity.
Defined.

End LocalExportFacts.

(** ** The differ *)

Module DifferFacts.
Import SharedTypes Monitor.

Lemma delta_app (reported : gset N) (a b : list ApiScannedRepository) :
  delta reported (a ++ b)
  = (fst (delta reported a) ++ fst (delta (snd (delta reported a)) b),
     snd (delta (snd (delta reported a)) b)).
Proof.
  revert reported. induction a as [|r a IH]; intros reported.
  - simpl. destruct (delta reported b); reflexivity.
  - cbn [app delta].
    destruct (isTerminalRepoStatus (analysis_status r) && bool_decide (repoId r ∉ reported)).
    + rewrite IH. destruct (delta ({[repoId r]} ∪ reported) a) as [d reported']. reflexivity.
    + apply IH.
Qed.

(** What the differ reports was not reported before, and the set only
    grows. *)
Lemma delta_fresh (repos : list ApiScannedRepository) :
  forall (reported : gset N),
    (forall e, e ∈ fst (delta reported repos) -> repoId e ∉ reported) /\
    reported ⊆ snd (delta reported repos) /\
    (forall e, e ∈ fst (delta reported repos) -> repoId e ∈ snd (delta reported repos)).
Proof.
  induction repos as [|r repos IH]; intros reported.
  - simpl. split; [intros e He; inversion He|]. split; [set_solver|].
    intros e He. inversion He.
  - cbn [delta].
    destruct (isTerminalRepoStatus (analysis_status r) && bool_decide (repoId r ∉ reported))
      eqn:Hnew.
    + destruct (IH ({[repoId r]} ∪ reported)) as (Hfresh & Hsub & Hin).
      destruct (delta ({[repoId r]} ∪ reported) repos) as [d reported'].
      cbn [fst snd] in *.
      apply andb_true_iff in Hnew as [_ Hnot]. apply bool_decide_eq_true in Hnot.
      split; [|split].
      * intros e [->|He]%elem_of_cons; [exact Hnot|].
        specialize (Hfresh e He). set_solver.
      * set_solver.
      * intros e [->|He]%elem_of_cons; [set_solver|]. apply Hin. exact He.
    + apply IH.
Qed.

Lemma delta_NoDup (repos : list ApiScannedRepository) :
  forall (reported : gset N), NoDup (map repoId (fst (delta reported repos))).
Proof.
  induction repos as [|r repos IH]; intros reported.
  - constructor.
  - cbn [delta].
    destruct (isTerminalRepoStatus (analysis_status r) && bool_decide (repoId r ∉ reported)).
    + pose proof (IH ({[repoId r]} ∪ reported)) as Hnd.
      destruct (delta_fresh repos ({[repoId r]} ∪ reported)) as (Hfresh & _ & _).
      destruct (delta ({[repoId r]} ∪ reported) repos) as [d reported'].
      cbn [fst snd map] in *.
      constructor; [|exact Hnd].
      intros (e & Heq & He)%list_elem_of_fmap.
      specialize (Hfresh e He). set_solver.
    + apply IH.
Qed.

(** The repositories reported Succeeded by the differ are those, not
    reported before, whose first terminal entry is Succeeded. *)
Lemma delta_succeeded (repos : list ApiScannedRepository) :
  forall (reported : gset N) (rid : N),
    rid ∈ map repoId (List.filter isSucceeded (fst (delta reported repos)))
    <-> (rid ∉ reported) /\
        (exists e, firstTerminal rid repos = Some e /\ isSucceeded e = true).
Proof.
  induction repos as [|r repos IH]; intros reported rid.
  - simpl. split; [intros H; inversion H|]. intros (_ & e & He & _). discriminate He.
  - unfold firstTerminal. cbn [delta List.find].
    fold (firstTerminal rid repos).
    destruct (isTerminalRepoStatus (analysis_status r)) eqn:Hterm;
      [destruct (decide (repoId r ∈ reported)) as [Hin|Hnot]|].
    + (* terminal, already reported *)
      rewrite bool_decide_eq_false_2 by (intros H; apply H; exact Hin).
      cbn [andb]. rewrite IH.
      destruct (N.eqb_spec (repoId r) rid) as [<-|Hne]; cbn [andb].
      * split; [intros [Hr _]; contradiction|intros [Hr _]; contradiction].
      * reflexivity.
    + (* terminal, new *)
      rewrite bool_decide_eq_true_2 by exact Hnot.
      cbn [andb].
      specialize (IH ({[repoId r]} ∪ reported) rid).
      destruct (delta ({[repoId r]} ∪ reported) repos) as [d reported'].
      cbn [fst List.filter] in *.
      destruct (N.eqb_spec (repoId r) rid) as [<-|Hne]; cbn [andb].
      * destruct (isSucceeded r) eqn:Hs; cbn [map].
        -- split; [|intros _; left].
           intros _. split; [exact Hnot|]. exists r. split; [reflexivity|exact Hs].
        -- rewrite IH. split; [intros [H _]; set_solver|].
           intros (_ & e & He & Hse). injection He as <-. congruence.
      * destruct (isSucceeded r); cbn [map];
          [rewrite elem_of_cons|]; rewrite IH; set_solver.
    + (* not terminal *)
      cbn [andb]. rewrite andb_false_r. apply IH.
Qed.

End DifferFacts.

(** ** The monitor loop *)

Module MonitorFacts.
Import SharedTypes Monitor.

Section WithTypes.
Context {RawFailureReason FailureReason : Type}.
Implicit Types (p : @Processor RawFailureReason FailureReason).
Implicit Types (env : @Env RawFailureReason).
Implicit Types (job : VariantAnalysis FailureReason).
Implicit Types (evs : list (@MonitorEvent RawFailureReason FailureReason)).

Lemma downloadedIds_app evs1 evs2 :
  downloadedIds (evs1 ++ evs2) = downloadedIds evs1 ++ downloadedIds evs2.
Proof. unfold downloadedIds, downloadTriggers. rewrite omap_app, map_app. reflexivity. Qed.

Lemma diffedEntries_app evs1 evs2 :
  diffedEntries (evs1 ++ evs2) = diffedEntries evs1 ++ diffedEntries evs2.
Proof.
  unfold diffedEntries, observedSnapshots.
  rewrite omap_app, List.filter_app, map_app, concat_app. reflexivity.
Qed.

Lemma downloadedIds_dispatch p job (d : list ApiScannedRepository) :
  (forall r, id (repository (processScannedRepository p r)) = repoId r) ->
  downloadedIds (dispatch p job d) = map repoId (List.filter isSucceeded d).
Proof.
  intros Hid. unfold dispatch, downloadedIds, downloadTriggers.
  induction (List.filter isSucceeded d) as [|r l IH]; [reflexivity|].
  cbn. rewrite Hid. f_equal. exact IH.
Qed.

Lemma diffedEntries_dispatch p job (d : list ApiScannedRepository) :
  diffedEntries (dispatch p job d) = [].
Proof.
  unfold dispatch, diffedEntries, observedSnapshots.
  induction (List.filter isSucceeded d) as [|r l IH]; [reflexivity|exact IH].
Qed.

(** The downloads of a run are the Succeeded entries of the delta of all
    the entries that the run diffed, taken as one collection. *)
Lemma downloads_are_delta p env (attempts : nat) :
  (forall r, id (repository (processScannedRepository p r)) = repoId r) ->
  forall (poll : nat) job (reported : gset N),
    let evs := fst (monitorFrom p env attempts poll job reported) in
    downloadedIds evs
    = map repoId (List.filter isSucceeded (fst (delta reported (diffedEntries evs)))).
Proof.
  intros Hid. induction attempts as [|attempts IH]; intros poll job reported; [reflexivity|].
  cbn [monitorFrom].
  destruct (shouldCancelMonitor env (va_id job) poll); [reflexivity|].
  destruct (getVariantAnalysis env (va_id job) poll) as [snapshot|]; [|reflexivity].
  destruct (isFailure (api_status snapshot)) eqn:Hfail.
  { cbn [fst]. unfold diffedEntries, observedSnapshots. cbn. rewrite Hfail. reflexivity. }
  specialize (IH (S poll) (processUpdatedVariantAnalysis p job snapshot)
                 (snd (delta reported (scanned_repositories snapshot)))).
  destruct (delta reported (scanned_repositories snapshot)) as [d reported'] eqn:Hdelta.
  cbn [snd] in IH.
  assert (Hhead :
    forall later,
      downloadedIds (Fetched snapshot
                     :: dispatch p (processUpdatedVariantAnalysis p job snapshot) d
                     ++ [Change (processUpdatedVariantAnalysis p job snapshot)] ++ later)
      = map repoId (List.filter isSucceeded d) ++ downloadedIds later
      /\ diffedEntries (Fetched snapshot
                     :: dispatch p (processUpdatedVariantAnalysis p job snapshot) d
                     ++ [Change (processUpdatedVariantAnalysis p job snapshot)] ++ later)
         = scanned_repositories snapshot ++ diffedEntries later).
  { intros later. split.
    - change (Fetched snapshot :: ?l) with ([Fetched snapshot] ++ l).
      rewrite !downloadedIds_app, (downloadedIds_dispatch _ _ _ Hid). reflexivity.
    - change (Fetched snapshot :: ?l) with ([Fetched snapshot] ++ l).
      rewrite !diffedEntries_app, diffedEntries_dispatch.
      unfold diffedEntries at 1, observedSnapshots. cbn. rewrite Hfail. cbn.
      rewrite app_nil_r. reflexivity. }
  destruct (isFinal (api_status snapshot)).
  - cbn [fst]. destruct (Hhead []) as [Hd He].
    rewrite app_nil_r in Hd, He. rewrite Hd, He.
    unfold downloadedIds at 1, downloadTriggers, diffedEntries, observedSnapshots.
    cbn. rewrite !app_nil_r, Hdelta. reflexivity.
  - destruct (monitorFrom p env attempts (S poll) _ reported') as [later c].
    cbn [fst] in *.
    destruct (Hhead (Sleep (sleepTime env) :: later)) as [Hd He].
    cbn [app]. rewrite <- List.app_assoc. rewrite Hd, He.
    change (Sleep (sleepTime env) :: later) with ([Sleep (sleepTime env)] ++ later).
    rewrite downloadedIds_app, diffedEntries_app.
    change (downloadedIds [Sleep (sleepTime env)]) with (@nil N).
    change (diffedEntries [Sleep (sleepTime env)]) with (@nil ApiScannedRepository).
    cbn [app]. rewrite IH, DifferFacts.delta_app, Hdelta. cbn [fst snd].
    rewrite List.filter_app, map_app. reflexivity.
Qed.

(** C1 (amended).  Over a whole run, each repository causes at most one
    download trigger, however many snapshots report it as Succeeded;
    a download is triggered for a repository exactly when its first
    terminal report, among the entries of the snapshots that the run
    diffed (those received without a failed top-level status), is
    Succeeded; the number of download triggers is the number of such
    repositories. *)
Theorem each_repository_downloaded_at_most_once p env job :
  (forall r, id (repository (processScannedRepository p r)) = repoId r) ->
  let evs := fst (monitorVariantAnalysis p env job) in
  NoDup (downloadedIds evs)
  /\ (forall rid,
        rid ∈ downloadedIds evs
        <-> exists e, firstTerminal rid (diffedEntries evs) = Some e /\
                      analysis_status e = repo_succeeded)
  /\ length (downloadTriggers evs) = size (succeededFirst (diffedEntries evs)).
Proof.
  intros Hid evs.
  pose proof (downloads_are_delta p env (S (maxAttemptCount env)) Hid 0%nat job ∅) as Hd.
  fold (monitorVariantAnalysis p env job) in Hd. cbv zeta in Hd. fold evs in Hd.
  assert (Hnd : NoDup (downloadedIds evs)).
  { rewrite Hd.
    apply (sublist_NoDup _ (map repoId (fst (delta ∅ (diffedEntries evs))))).
    - apply DifferFacts.delta_NoDup.
    - apply (fmap_sublist repoId). apply SelectionFacts.filter_sublist. }
  assert (Hmem : forall rid,
            rid ∈ downloadedIds evs
            <-> exists e, firstTerminal rid (diffedEntries evs) = Some e /\
                          analysis_status e = repo_succeeded).
  { intros rid. rewrite Hd, DifferFacts.delta_succeeded.
    split.
    - intros (_ & e & He & Hs). exists e. split; [exact He|].
      apply bool_decide_eq_true in Hs. exact Hs.
    - intros (e & He & Hs). split; [set_solver|]. exists e. split; [exact He|].
      apply bool_decide_eq_true. exact Hs. }
  split; [exact Hnd|]. split; [exact Hmem|].
  replace (length (downloadTriggers evs)) with (length (downloadedIds evs))
    by (unfold downloadedIds; apply length_map).
  rewrite <- (size_list_to_set (C := gset N) (downloadedIds evs) Hnd).
  f_equal. apply set_eq. intros rid.
  rewrite elem_of_list_to_set, Hmem. unfold succeededFirst.
  rewrite elem_of_list_to_set, list_elem_of_In, filter_In, <- list_elem_of_In.
  split.
  - intros (e & He & Hs). rewrite He. split.
    + unfold firstTerminal in He. apply find_some in He as [Hin Hp].
      apply andb_true_iff in Hp as [Heq%N.eqb_eq _]. subst rid.
      apply list_elem_of_fmap. exists e. split; [reflexivity|].
      apply list_elem_of_In. exact Hin.
    + apply bool_decide_eq_true. exact Hs.
  - intros [_ Hf]. destruct (firstTerminal rid (diffedEntries evs)) as [e|]; [|discriminate].
    exists e. split; [reflexivity|]. apply bool_decide_eq_true in Hf. exact Hf.
Qed.

(** C3.  When the cancellation predicate answers true before the first
    poll, the monitor returns at once: nothing is fetched, no change
    event is emitted and no download is triggered. *)
Theorem cancelled_before_first_poll p env job :
  shouldCancelMonitor env (va_id job) 0%nat = true ->
  monitorVariantAnalysis p env job = ([], Resolved)
  /\ changeEvents (fst (monitorVariantAnalysis p env job)) = []
  /\ downloadTriggers (fst (monitorVariantAnalysis p env job)) = []
  /\ fetches (fst (monitorVariantAnalysis p env job)) = 0%nat.
Proof.
  intros Hcancel.
  assert (Hrun : monitorVariantAnalysis p env job = ([], Resolved)).
  { unfold monitorVariantAnalysis. cbn [monitorFrom]. rewrite Hcancel. reflexivity. }
  rewrite Hrun. repeat split; reflexivity.
Qed.

(** C2.  When the first fetch answers a failed top-level status, the
    monitor emits exactly one change event, whose job has the status
    Failed and the classification that the failure-reason mapping gives
    the raw failure reason; it triggers no download and fetches no
    more. *)
Theorem failed_first_fetch_stops_monitoring p env job
    (snapshot : ApiResponse RawFailureReason) :
  shouldCancelMonitor env (va_id job) 0%nat = false ->
  getVariantAnalysis env (va_id job) 0%nat = Some snapshot ->
  api_status snapshot = failed ->
  let evs := fst (monitorVariantAnalysis p env job) in
  monitorVariantAnalysis p env job
  = ([Fetched snapshot; Change (markFailed p job snapshot)], Resolved)
  /\ changeEvents evs = [markFailed p job snapshot]
  /\ status (markFailed p job snapshot) = Failed
  /\ failureReason (markFailed p job snapshot)
     = processFailureReason p <$> failure_reason snapshot
  /\ downloadTriggers evs = []
  /\ fetches evs = 1%nat.
Proof.
  intros Hcancel Hfetch Hfailed evs.
  assert (Hrun : monitorVariantAnalysis p env job
                 = ([Fetched snapshot; Change (markFailed p job snapshot)], Resolved)).
  { unfold monitorVariantAnalysis. cbn [monitorFrom].
    rewrite Hcancel, Hfetch. unfold isFailure. rewrite Hfailed. reflexivity. }
  unfold evs. rewrite Hrun. repeat split; reflexivity.
Qed.

(** C4.  Seven repositories whose statuses are pending, pending,
    in progress, in progress, succeeded, succeeded, succeeded, in a first
    snapshot whose top-level status is succeeded: the monitor triggers
    exactly three downloads, for the fifth, sixth and seventh repository
    in that order, each with the processed repository and the processed
    job, then emits the change event and stops. *)
Theorem seven_repositories_three_downloads p env job
    (snapshot : ApiResponse RawFailureReason)
    (r1 r2 r3 r4 r5 r6 r7 : ApiScannedRepository) :
  shouldCancelMonitor env (va_id job) 0%nat = false ->
  getVariantAnalysis env (va_id job) 0%nat = Some snapshot ->
  api_status snapshot = succeeded ->
  scanned_repositories snapshot = [r1; r2; r3; r4; r5; r6; r7] ->
  map analysis_status [r1; r2; r3; r4; r5; r6; r7]
  = [repo_pending; repo_pending; repo_in_progress; repo_in_progress;
     repo_succeeded; repo_succeeded; repo_succeeded] ->
  NoDup (map repoId [r1; r2; r3; r4; r5; r6; r7]) ->
  let job' := processUpdatedVariantAnalysis p job snapshot in
  monitorVariantAnalysis p env job
  = ([ Fetched snapshot;
       DownloadTrigger (processScannedRepository p r5) job';
       DownloadTrigger (processScannedRepository p r6) job';
       DownloadTrigger (processScannedRepository p r7) job';
       Change job' ], Resolved)
  /\ downloadTriggers (fst (monitorVariantAnalysis p env job))
     = [ (processScannedRepository p r5, job');
         (processScannedRepository p r6, job');
         (processScannedRepository p r7, job') ].
Proof.
  intros Hcancel Hfetch Hstatus Hrepos Hst Hnd job'.
  injection Hst as H1 H2 H3 H4 H5 H6 H7.
  cbn [map] in Hnd.
  repeat match goal with
         | H : NoDup (_ :: _) |- _ => apply NoDup_cons in H as [? ?]
         end.
  assert (Hdelta : delta ∅ [r1; r2; r3; r4; r5; r6; r7]
                   = ([r5; r6; r7], {[repoId r7]} ∪ ({[repoId r6]} ∪ ({[repoId r5]} ∪ ∅)))).
  { cbn [delta]. rewrite H1, H2, H3, H4, H5, H6, H7. cbn [isTerminalRepoStatus andb].
    rewrite !bool_decide_eq_true_2 by set_solver. reflexivity. }
  assert (Hrun : monitorVariantAnalysis p env job
                 = ([ Fetched snapshot;
                      DownloadTrigger (processScannedRepository p r5) job';
                      DownloadTrigger (processScannedRepository p r6) job';
                      DownloadTrigger (processScannedRepository p r7) job';
                      Change job' ], Resolved)).
  { unfold monitorVariantAnalysis. cbn [monitorFrom].
    rewrite Hcancel, Hfetch. unfold isFailure, isFinal. rewrite Hstatus, Hrepos, Hdelta.
    cbn. unfold dispatch, isSucceeded. cbn [List.filter].
    rewrite H5, H6, H7. reflexivity. }
  rewrite Hrun. split; reflexivity.
Qed.

End WithTypes.

Import MonitorFixtures.

Lemma cancelled_before_first_poll_witness :
  monitorVariantAnalysis processor cancelledEnv job = ([], Resolved).
Proof. apply (cancelled_before_first_poll processor cancelledEnv job). reflexivity. Defined.

Lemma failed_first_fetch_stops_monitoring_witness :
  changeEvents (fst (monitorVariantAnalysis processor (envOf [failedResponse]) job))
  = [ {| va_id := 7;
         query := {| name := "Empty Block"; language := QueryLanguage.Go |};
         status := Failed;
         failureReason := Some InternalError;
         scannedRepos := None |} ]
  /\ fetches (fst (monitorVariantAnalysis processor (envOf [failedResponse]) job)) = 1%nat.
Proof.
  pose proof (failed_first_fetch_stops_monitoring processor (envOf [failedResponse]) job
                failedResponse eq_refl eq_refl eq_refl) as (_ & Hchange & _ & _ & _ & Hfetch).
  split; [exact Hchange|exact Hfetch].
Defined.

Lemma seven_repositories_three_downloads_witness :
  map (fun rj => id (repository (fst rj)))
      (downloadTriggers
         (fst (monitorVariantAnalysis processor (envOf [response succeeded sevenRepos]) job)))
  = [5; 6; 7].
Proof.
  pose proof (seven_repositories_three_downloads processor
                (envOf [response succeeded sevenRepos]) job (response succeeded sevenRepos)
                (scanned 1 repo_pending) (scanned 2 repo_pending)
                (scanned 3 repo_in_progress) (scanned 4 repo_in_progress)
                (scanned 5 repo_succeeded) (scanned 6 repo_succeeded)
                (scanned 7 repo_succeeded)
                eq_refl eq_refl eq_refl eq_refl eq_refl) as H.
  destruct H as [_ H].
  - cbn. repeat (constructor; [set_solver|]). constructor.
  - rewrite H. reflexivity.
Defined.

Lemma each_repository_downloaded_at_most_once_witness :
  NoDup (downloadedIds (fst (monitorVariantAnalysis processor (envOf changingResponses) job))).
Proof.
  apply (each_repository_downloaded_at_most_once processor (envOf changingResponses) job).
  intros r. reflexivity.
Defined.

(** The run of the test in which the responses change: four fetches and
    five downloads, in the order in which the repositories succeed. *)
Example changing_responses_run :
  let evs := fst (monitorVariantAnalysis processor (envOf changingResponses) job) in
  fetches evs = 4%nat /\ downloadedIds evs = [1; 2; 3; 6; 4]
  /\ length (changeEvents evs) = 4%nat.
Proof. vm_compute. repeat split; reflexivity. Qed.

(** The number of download triggers is not always the number of
    repositories that reach Succeeded: when the run ends on a failed
    snapshot that lists a repository as Succeeded, no download is
    triggered for it. *)
Lemma download_count_differs_on_failed_snapshot :
  let evs := fst (monitorVariantAnalysis processor (envOf [failedResponse]) job) in
  length (downloadTriggers evs) <> size (everSucceeded evs).
Proof. vm_compute. discriminate. Qed.

(** Nor is a download triggered for a repository that is reported Failed
    before it is reported Succeeded. *)
Example download_count_differs_after_failure :
  let evs :=
    fst (monitorVariantAnalysis processor
           (envOf [ response in_progress [scanned 1 repo_failed];
                    response succeeded [scanned 1 repo_succeeded] ]) job) in
  downloadedIds evs = [] /\ size (everSucceeded evs) = 1%nat.
Proof. vm_compute. split; reflexivity. Qed.

End MonitorFacts.

(** ** The export pipeline: failures and cancellation *)

Module PipelineFacts.
Import Effects SharedTypes ExportResults Traces ExportTraces FormatFacts.

Section WithTypes.
Context {ScannedRepositoryResult Credentials FailureReason : Type}.
Implicit Types (env : @Env ScannedRepositoryResult Credentials FailureReason).
Implicit Types (mgr : @VariantAnalysisManager ScannedRepositoryResult FailureReason).

(** The export when the format resolution answers a format. *)
Lemma export_with_format env mgr (variantAnalysisId : N)
    (filterSort : option FilterSort.RepositoriesFilterSortStateWithIds)
    (credentials : Credentials) (variantAnalysis : VariantAnalysis FailureReason)
    (format : ExportFormat) (h0 : list Event) :
  getVariantAnalysis mgr variantAnalysisId = Some variantAnalysis ->
  isCancellationRequested (token env) (h0 ++ [progressShown]) = false ->
  fst (determineExportFormat env (beforePicker h0 variantAnalysis)) = Return (Some format) ->
  exportVariantAnalysisResults env mgr variantAnalysisId filterSort credentials h0
  = afterFormat env mgr variantAnalysisId variantAnalysis filterSort credentials format
      (upToPicker h0 variantAnalysis).
Proof.
  intros Hva Htok Hformat.
  rewrite (export_run env mgr variantAnalysisId filterSort credentials variantAnalysis
             h0 Hva Htok).
  pose proof (determineExportFormat_history env (beforePicker h0 variantAnalysis)) as Hh.
  destruct (determineExportFormat env _) as [out h1].
  cbn [fst snd] in Hformat, Hh. subst out h1. reflexivity.
Qed.

(** From the answer of the picker to the end of the rendering. *)
Lemma afterFormat_run env mgr (variantAnalysisId : N)
    (variantAnalysis : VariantAnalysis FailureReason)
    (filterSort : option FilterSort.RepositoriesFilterSortStateWithIds)
    (credentials : Credentials) (format : ExportFormat) (h1 : list Event) :
  isCancellationRequested (token env) h1 = false ->
  let repositories :=
    selectRepositories env variantAnalysis filterSort (getRepoStates mgr variantAnalysisId) in
  afterFormat env mgr variantAnalysisId variantAnalysis filterSort credentials format h1
  = match generateVariantAnalysisMarkdown env variantAnalysis
            (getAnalysesResults mgr variantAnalysis repositories)
            (match repositories with Some repos => length repos | None => 0%nat end)
            format (h1 ++ [Progress 2 1 "Generating Markdown files"]) with
    | (Return rendered, hRendered) =>
        exportResults env
          (exportedResultsDirectory env
             (getVariantAnalysisStorageLocation mgr (va_id variantAnalysis))
             (newDate env h1))
          (buildVariantAnalysisGistDescription variantAnalysis (snd rendered))
          (fst rendered) format credentials (Some (token env)) hRendered
    | (Throw e, hRendered) => (Throw e, hRendered)
    end.
Proof.
  intros Htok repositories.
  cbv beta iota zeta delta [afterFormat exportVariantAnalysisAnalysisResults
                            throwIfCancelled progress bind emit ret throw observe
                            MAX_VARIANT_ANALYSIS_EXPORT_PROGRESS_STEPS].
  rewrite !Htok. cbv beta iota zeta. fold repositories.
  destruct (generateVariantAnalysisMarkdown env _ _ _ _ _) as [[rendered|e] hRendered];
    reflexivity.
Qed.

(** X1.  When the variant analysis cannot be found, the export writes
    one line to the log and throws an error; the picker is not shown and
    nothing else is called.  Run as a registered command, the error goes
    through show-and-log-exception-with-telemetry and the command
    returns [undefined]. *)
Theorem export_of_missing_analysis env mgr
    (hp : Commands.Helpers) (host : Commands.Host) (commandId : string)
    (variantAnalysisId : N)
    (filterSort : option FilterSort.RepositoriesFilterSortStateWithIds)
    (credentials : Credentials) (h0 : list Event) :
  getVariantAnalysis mgr variantAnalysisId = None ->
  let export :=
    exportVariantAnalysisResults env mgr variantAnalysisId filterSort credentials in
  let h1 :=
    h0 ++ [ progressShown;
            Log ("Could not find variant analysis with id " +:+ pretty variantAnalysisId) ] in
  export h0 = (Throw notFound, h1)
  /\ Commands.registerCommandWithErrorHandling hp host commandId export h0
     = (Return None,
        h1 ++ reportOf hp commandId notFound ::
              usageOf host commandId h0 (h1 ++ [reportOf hp commandId notFound])
                      (Some (Commands.asError hp notFound)))
  /\ isErrorReport (reportOf hp commandId notFound) = true.
Proof.
  intros Hva export h1.
  assert (Hrun : export h0 = (Throw notFound, h1)).
  { unfold export, h1.
    cbv beta iota zeta delta [exportVariantAnalysisResults withProgress bind emit throw].
    rewrite Hva. cbv beta iota zeta. rewrite <- List.app_assoc. reflexivity. }
  split; [exact Hrun|]. split; [|reflexivity].
  apply CommandsFacts.command_throws. exact Hrun.
Qed.

(** X2.  When cancellation has been requested before the export looks
    at the token for the first time, the export throws the interactive
    cancellation [Cancelled] without logging, reporting progress or
    showing the picker; run as a registered command, the user gets a
    warning message (unlike for a dismissed picker). *)
Theorem export_cancelled_before_picker env mgr
    (hp : Commands.Helpers) (host : Commands.Host) (commandId : string)
    (variantAnalysisId : N)
    (filterSort : option FilterSort.RepositoriesFilterSortStateWithIds)
    (credentials : Credentials) (variantAnalysis : VariantAnalysis FailureReason)
    (h0 : list Event) :
  getVariantAnalysis mgr variantAnalysisId = Some variantAnalysis ->
  isCancellationRequested (token env) (h0 ++ [progressShown]) = true ->
  let export :=
    exportVariantAnalysisResults env mgr variantAnalysisId filterSort credentials in
  export h0 = (Throw cancelled, h0 ++ [progressShown])
  /\ exists msg,
       Commands.registerCommandWithErrorHandling hp host commandId export h0
       = (Return None,
          (h0 ++ [progressShown]) ++ ShowAndLogWarningMessage msg ::
             usageOf host commandId h0
               ((h0 ++ [progressShown]) ++ [ShowAndLogWarningMessage msg])
               (Some (Commands.asError hp cancelled))).
Proof.
  intros Hva Htok export.
  assert (Hrun : export h0 = (Throw cancelled, h0 ++ [progressShown])).
  { unfold export.
    cbv beta iota zeta delta [exportVariantAnalysisResults withProgress throwIfCancelled
                              bind emit throw observe].
    rewrite Hva. cbv beta iota zeta. fold progressShown. rewrite Htok. reflexivity. }
  split; [exact Hrun|].
  eexists. rewrite (CommandsFacts.command_throws hp host commandId export _ _ _ Hrun).
  reflexivity.
Qed.

(** X3.  When cancellation is requested while the picker is open, the
    export throws [Cancelled] right after the picker, whichever format
    was picked: the repositories are not selected, nothing is rendered,
    loaded, written or uploaded. *)
Theorem export_cancelled_after_picker env mgr (variantAnalysisId : N)
    (filterSort : option FilterSort.RepositoriesFilterSortStateWithIds)
    (credentials : Credentials) (variantAnalysis : VariantAnalysis FailureReason)
    (format : ExportFormat) (h0 : list Event) :
  getVariantAnalysis mgr variantAnalysisId = Some variantAnalysis ->
  isCancellationRequested (token env) (h0 ++ [progressShown]) = false ->
  fst (determineExportFormat env (beforePicker h0 variantAnalysis)) = Return (Some format) ->
  isCancellationRequested (token env) (upToPicker h0 variantAnalysis) = true ->
  exportVariantAnalysisResults env mgr variantAnalysisId filterSort credentials h0
  = (Throw cancelled, upToPicker h0 variantAnalysis).
Proof.
  intros Hva Htok Hformat Hcancel.
  rewrite (export_with_format env mgr variantAnalysisId filterSort credentials
             variantAnalysis format h0 Hva Htok Hformat).
  cbv beta iota zeta delta [afterFormat throwIfCancelled bind throw observe].
  rewrite Hcancel. reflexivity.
Qed.

(** X4.  When the rendering throws (a result that cannot be loaded, for
    instance), the export throws the same value at that point: no
    directory is created, no file written and no Gist created. *)
Theorem export_rendering_failure env mgr (variantAnalysisId : N)
    (filterSort : option FilterSort.RepositoriesFilterSortStateWithIds)
    (credentials : Credentials) (variantAnalysis : VariantAnalysis FailureReason)
    (format : ExportFormat) (e : Thrown) (h0 hRendered : list Event) :
  getVariantAnalysis mgr variantAnalysisId = Some variantAnalysis ->
  isCancellationRequested (token env) (h0 ++ [progressShown]) = false ->
  fst (determineExportFormat env (beforePicker h0 variantAnalysis)) = Return (Some format) ->
  isCancellationRequested (token env) (upToPicker h0 variantAnalysis) = false ->
  let repositories :=
    selectRepositories env variantAnalysis filterSort (getRepoStates mgr variantAnalysisId) in
  generateVariantAnalysisMarkdown env variantAnalysis
    (getAnalysesResults mgr variantAnalysis repositories)
    (match repositories with Some repos => length repos | None => 0%nat end)
    format (upToPicker h0 variantAnalysis ++ [Progress 2 1 "Generating Markdown files"])
  = (Throw e, hRendered) ->
  exportVariantAnalysisResults env mgr variantAnalysisId filterSort credentials h0
  = (Throw e, hRendered).
Proof.
  intros Hva Htok Hformat Htok' repositories Hrender.
  rewrite (export_with_format env mgr variantAnalysisId filterSort credentials
             variantAnalysis format h0 Hva Htok Hformat).
  rewrite (afterFormat_run env mgr variantAnalysisId variantAnalysis filterSort
             credentials format _ Htok').
  fold repositories. rewrite Hrender. reflexivity.
Qed.

End WithTypes.

Import ExtraFixtures.

Lemma export_of_missing_analysis_witness :
  exportVariantAnalysisResults (Fixtures.env None) Fixtures.manager 8 None tt []
  = (Throw notFound, [progressShown; Log "Could not find variant analysis with id 8"]).
Proof.
  apply (export_of_missing_analysis (Fixtures.env None) Fixtures.manager
           Fixtures.helpers Fixtures.host "codeQL.exportVariantAnalysisResults"
           8 None tt []).
  reflexivity.
Defined.

Lemma export_cancelled_before_picker_witness :
  exportVariantAnalysisResults
    (custom (Some localMarkdownOption) (after 0) succeeds writes (Return None)
            Fixtures.renderAll)
    Fixtures.manager 7 None tt []
  = (Throw cancelled, [progressShown]).
Proof.
  apply (export_cancelled_before_picker
           (custom (Some localMarkdownOption) (after 0) succeeds writes (Return None)
                   Fixtures.renderAll)
           Fixtures.manager Fixtures.helpers Fixtures.host
           "codeQL.exportVariantAnalysisResults" 7 None tt Fixtures.job []);
    reflexivity.
Defined.

Lemma export_cancelled_after_picker_witness :
  exportVariantAnalysisResults
    (custom (Some gistOption) (after 4) succeeds writes (Return None) Fixtures.renderAll)
    Fixtures.manager 7 None tt []
  = (Throw cancelled, upToPicker [] Fixtures.job).
Proof.
  apply (export_cancelled_after_picker
           (custom (Some gistOption) (after 4) succeeds writes (Return None)
                   Fixtures.renderAll)
           Fixtures.manager 7 None tt Fixtures.job gist []);
    reflexivity.
Defined.

Lemma export_rendering_failure_witness :
  exportVariantAnalysisResults
    (custom (Some localMarkdownOption) never succeeds writes (Return None)
            Fixtures.renderAll)
    (managerMissing "octo/d") 7 None tt []
  = (Throw (OtherError "Missing results"),
     upToPicker [] Fixtures.job
     ++ [ Progress 2 1 "Generating Markdown files";
          LoadResults 7 "octo/a" true; LoadResults 7 "octo/d" true ]).
Proof.
  apply (export_rendering_failure
           (custom (Some localMarkdownOption) never succeeds writes (Return None)
                   Fixtures.renderAll)
           (managerMissing "octo/d") 7 None tt Fixtures.job local
           (OtherError "Missing results") []);
    reflexivity.
Defined.

End PipelineFacts.

(** ** Export to a Gist *)

Module GistFacts.
Import Effects SharedTypes ExportResults Traces ExportTraces FormatFacts.

Lemma find_snoc {A} (p : A -> bool) (l : list A) (x : A) :
  List.find p (l ++ [x])
  = match List.find p l with
    | Some y => Some y
    | None => if p x then Some x else None
    end.
Proof.
  induction l as [|y l IH]; [reflexivity|].
  cbn [app List.find]. destruct (p y); [reflexivity|exact IH].
Qed.

Lemma gistFiles_from (files : list MarkdownGeneration.MarkdownFile) :
  forall (acc : gmap string string) (key : string),
    fold_left
      (fun acc cur =>
         <[ MarkdownGeneration.fileName cur +:+ ".md" :=
            joinLines (MarkdownGeneration.content cur) ]> acc)
      files acc !! key
    = match List.find (fun f => String.eqb (mdName f) key) (rev files) with
      | Some f => Some (joinLines (MarkdownGeneration.content f))
      | None => acc !! key
      end.
Proof.
  induction files as [|f rest IH]; intros acc key; [reflexivity|].
  cbn [fold_left rev]. rewrite IH, find_snoc.
  destruct (List.find _ (rev rest)) as [g|]; [reflexivity|].
  fold (mdName f).
  destruct (String.eqb_spec (mdName f) key) as [<-|Hne].
  - apply lookup_insert_eq.
  - apply lookup_insert_ne. exact Hne.
Qed.

(** X5.  The files uploaded to a Gist are keyed by [<fileName>.md]: a key
    holds the content lines, joined by newlines, of the last rendered
    file with that name (an earlier file of the same name is replaced),
    and the keys are exactly the names of the rendered files. *)
Theorem gistFiles_lookup (files : list MarkdownGeneration.MarkdownFile) (key : string) :
  gistFiles files !! key
  = (fun f => joinLines (MarkdownGeneration.content f))
      <$> List.find (fun f => String.eqb (mdName f) key) (rev files)
  /\ (key ∈ dom (gistFiles files) <-> key ∈ map mdName files).
Proof.
  assert (Hlookup :
    gistFiles files !! key
    = (fun f => joinLines (MarkdownGeneration.content f))
        <$> List.find (fun f => String.eqb (mdName f) key) (rev files)).
  { unfold gistFiles. rewrite gistFiles_from.
    destruct (List.find _ (rev files)); [reflexivity|apply lookup_empty]. }
  split; [exact Hlookup|].
  rewrite elem_of_dom, Hlookup. split.
  - intros [content Hc]. destruct (List.find _ (rev files)) as [f|] eqn:Hf; [|discriminate Hc].
    apply find_some in Hf as [Hin Heq]. apply String.eqb_eq in Heq. subst key.
    apply list_elem_of_fmap. exists f. split; [reflexivity|].
    apply list_elem_of_In, in_rev. exact Hin.
  - intros (f & -> & Hin)%list_elem_of_fmap.
    destruct (List.find _ (rev files)) as [g|] eqn:Hg; [eexists; reflexivity|].
    exfalso. apply list_elem_of_In, in_rev in Hin.
    pose proof (find_none _ _ Hg f Hin) as Hno. cbv beta in Hno.
    rewrite String.eqb_refl in Hno. discriminate Hno.
Qed.

Example gistFiles_same_name :
  gistFiles [ExtraFixtures.file "a" "first"; ExtraFixtures.file "b" "other";
             ExtraFixtures.file "a" "second"]
  = {[ "a.md" := "second"; "b.md" := "other" ]}.
Proof. apply map_eq. intros key. vm_compute. reflexivity. Qed.

Section WithTypes.
Context {ScannedRepositoryResult Credentials FailureReason : Type}.
Implicit Types (env : @Env ScannedRepositoryResult Credentials FailureReason).
Implicit Types (mgr : @VariantAnalysisManager ScannedRepositoryResult FailureReason).

(** What [exportToGist] does when no cancellation is requested. *)
Lemma exportToGist_run env (description : string)
    (files : list MarkdownGeneration.MarkdownFile) (credentials : Credentials)
    (h : list Event) :
  isCancellationRequested (token env) (h ++ [Progress 2 2 "Creating Gist"]) = false ->
  exportToGist env description files credentials (Some (token env)) h
  = let called :=
      h ++ [ Progress 2 2 "Creating Gist"; CreateGist description (gistFiles files) ] in
    match createGist env credentials description (gistFiles files) with
    | Return (Some url) =>
        if decide (url = EmptyString) then (Return tt, called)
        else (Return tt, called ++ [gistExported])
    | Return None => (Return tt, called)
    | Throw e => (Throw e, called)
    end.
Proof.
  intros Htok.
  cbv beta iota zeta delta [exportToGist throwIfCancelled progress bind emit ret throw
                            observe call MAX_VARIANT_ANALYSIS_EXPORT_PROGRESS_STEPS].
  rewrite Htok. cbv beta iota zeta. rewrite <- List.app_assoc. cbn [app].
  destruct (createGist env credentials description (gistFiles files)) as [[url|]|e];
    try reflexivity.
  destruct (decide (url = EmptyString)); reflexivity.
Qed.

(** X6.  A Gist export, after the rendering, reports the last progress
    step and calls [createGist] once, with the description built from
    the summaries and the rendered files keyed by name; it then offers
    to open the Gist exactly when a non-empty URL came back, and throws
    what [createGist] throws.  It never calls the file system. *)
Theorem gist_export_uploads_once env mgr (variantAnalysisId : N)
    (filterSort : option FilterSort.RepositoriesFilterSortStateWithIds)
    (credentials : Credentials) (variantAnalysis : VariantAnalysis FailureReason)
    (files : list MarkdownGeneration.MarkdownFile)
    (summaries : list MarkdownGeneration.RepositorySummary)
    (h0 hRendered : list Event) :
  getVariantAnalysis mgr variantAnalysisId = Some variantAnalysis ->
  (forall h, isCancellationRequested (token env) h = false) ->
  showQuickPick env [gistOption; localMarkdownOption] = Some gistOption ->
  let repositories :=
    selectRepositories env variantAnalysis filterSort (getRepoStates mgr variantAnalysisId) in
  generateVariantAnalysisMarkdown env variantAnalysis
    (getAnalysesResults mgr variantAnalysis repositories)
    (match repositories with Some repos => length repos | None => 0%nat end)
    gist (upToPicker h0 variantAnalysis ++ [Progress 2 1 "Generating Markdown files"])
  = (Return (files, summaries), hRendered) ->
  let description := buildVariantAnalysisGistDescription variantAnalysis summaries in
  let answer := createGist env credentials description (gistFiles files) in
  let calls :=
    [ Progress 2 2 "Creating Gist"; CreateGist description (gistFiles files) ]
    ++ match answer with
       | Return (Some url) => if decide (url = EmptyString) then [] else [gistExported]
       | _ => []
       end in
  exportVariantAnalysisResults env mgr variantAnalysisId filterSort credentials h0
  = (match answer with Return _ => Return tt | Throw e => Throw e end,
     hRendered ++ calls)
  /\ Forall (fun ev => isFileSystemCall ev = false) calls.
Proof.
  intros Hva Htok Hpick repositories Hrender description answer calls.
  assert (Hformat : fst (determineExportFormat env (beforePicker h0 variantAnalysis))
                    = Return (Some gist)).
  { unfold determineExportFormat, bind, call. cbn. rewrite Hpick. reflexivity. }
  split.
  - rewrite (PipelineFacts.export_with_format env mgr variantAnalysisId filterSort
               credentials variantAnalysis gist h0 Hva (Htok _) Hformat).
    rewrite (PipelineFacts.afterFormat_run env mgr variantAnalysisId variantAnalysis
               filterSort credentials gist _ (Htok _)).
    fold repositories. rewrite Hrender. cbn [fst snd].
    unfold exportResults, throwIfCancelled, bind at 1, bind at 1, observe.
    rewrite Htok. cbv beta iota. unfold ret at 1. cbv beta iota.
    rewrite (exportToGist_run env _ files credentials hRendered (Htok _)).
    fold description. fold answer. unfold calls. cbv zeta.
    destruct answer as [[url|]|e]; cbn [app]; try reflexivity.
    destruct (decide (url = EmptyString)); [reflexivity|].
    rewrite <- List.app_assoc. reflexivity.
  - unfold calls. destruct answer as [[url|]|e]; cbn [app]; repeat constructor.
    destruct (decide (url = EmptyString)); repeat constructor.
Qed.


End WithTypes.

Import ExtraFixtures.

Lemma gist_export_uploads_once_witness :
  exportVariantAnalysisResults
    (custom (Some gistOption) never succeeds writes
            (Return (Some "https://gist.github.com/1")) Fixtures.renderAll)
    Fixtures.manager 7 None tt []
  = (Return tt,
     [ progressShown;
       Log "Exporting variant analysis results for variant analysis with id 7";
       Progress 2 0 "Determining export format";
       pickerShown;
       Progress 2 1 "Generating Markdown files";
       LoadResults 7 "octo/a" true;
       LoadResults 7 "octo/d" true ]
     ++ [ Progress 2 2 "Creating Gist";
          CreateGist "Empty Block (go) 4 results (2 repositories)"
            (gistFiles [ file "octo/a" "results of octo/a";
                         file "octo/d" "results of octo/d";
                         file "_summary" "# Summary" ]) ]
     ++ [gistExported]).
Proof.
  refine (proj1 (gist_export_uploads_once
            (custom (Some gistOption) never succeeds writes
                    (Return (Some "https://gist.github.com/1")) Fixtures.renderAll)
            Fixtures.manager 7 None tt Fixtures.job
            [ file "octo/a" "results of octo/a"; file "octo/d" "results of octo/d";
              file "_summary" "# Summary" ]
            [ {| MarkdownGeneration.summaryFileName := "octo/a";
                 MarkdownGeneration.resultCount := Some 3 |};
              {| MarkdownGeneration.summaryFileName := "octo/d";
                 MarkdownGeneration.resultCount := Some 1 |} ]
            []
            [ progressShown;
              Log "Exporting variant analysis results for variant analysis with id 7";
              Progress 2 0 "Determining export format";
              pickerShown;
              Progress 2 1 "Generating Markdown files";
              LoadResults 7 "octo/a" true;
              LoadResults 7 "octo/d" true ]
            _ _ _ _)).
  - reflexivity.
  - intros h. reflexivity.
  - reflexivity.
  - vm_compute. reflexivity.
Defined.


End GistFacts.

(** ** Local export: file-system failures *)

Module LocalFailureFacts.
Import Effects SharedTypes ExportResults Traces ExportTraces LocalExportFacts.

Section WithTypes.
Context {ScannedRepositoryResult Credentials FailureReason : Type}.
Implicit Types (env : @Env ScannedRepositoryResult Credentials FailureReason).

Lemma writeMarkdownFiles_failure env (dir : string)
    (before : list MarkdownGeneration.MarkdownFile) :
  forall (f : MarkdownGeneration.MarkdownFile)
         (later : list MarkdownGeneration.MarkdownFile) (e : Thrown) (h : list Event),
  (forall g, g ∈ before ->
     writeFile env (join env [dir; mdName g])
               (joinLines (MarkdownGeneration.content g)) "utf8" = Return tt) ->
  writeFile env (join env [dir; mdName f])
            (joinLines (MarkdownGeneration.content f)) "utf8" = Throw e ->
  writeMarkdownFiles env dir (before ++ f :: later) h
  = (Throw e, h ++ map (writeOf env dir) (before ++ [f])).
Proof.
  induction before as [|g before IH]; intros f later e h Hbefore Hfail.
  - cbn [app writeMarkdownFiles]. unfold bind, call.
    unfold mdName in Hfail. rewrite Hfail. reflexivity.
  - cbn [app writeMarkdownFiles]. unfold bind at 1, call at 1.
    pose proof (Hbefore g ltac:(left)) as Hg. unfold mdName in Hg. rewrite Hg.
    rewrite (IH f later e _ (fun g' Hg' => Hbefore g' ltac:(right; exact Hg')) Hfail).
    cbn [map]. rewrite <- List.app_assoc. reflexivity.
Qed.

(** X8.  A local export stops at the first file-system failure and
    throws it.  When the directory cannot be created, no file is written;
    when the write of a file fails, the files before it have been
    written (in order) and the files after it are not attempted.  In
    both cases the message that offers to open the results is not
    shown. *)
Theorem local_export_stops_at_first_failure env (dir : string)
    (before later : list MarkdownGeneration.MarkdownFile)
    (f : MarkdownGeneration.MarkdownFile) (e : Thrown) (h : list Event) :
  isCancellationRequested (token env) h = false ->
  (ensureDir env dir = Throw e ->
   exportToLocalMarkdown env dir (before ++ f :: later) (Some (token env)) h
   = (Throw e, h ++ [Progress 2 2 "Creating local Markdown files"; EnsureDir dir]))
  /\
  (ensureDir env dir = Return tt ->
   (forall g, g ∈ before ->
      writeFile env (join env [dir; mdName g])
                (joinLines (MarkdownGeneration.content g)) "utf8" = Return tt) ->
   writeFile env (join env [dir; mdName f])
             (joinLines (MarkdownGeneration.content f)) "utf8" = Throw e ->
   exportToLocalMarkdown env dir (before ++ f :: later) (Some (token env)) h
   = (Throw e,
      h ++ [Progress 2 2 "Creating local Markdown files"; EnsureDir dir]
        ++ map (writeOf env dir) (before ++ [f]))).
Proof.
  intros Htok. split.
  - intros Hdir.
    cbv beta iota zeta delta [exportToLocalMarkdown throwIfCancelled progress bind emit
                              ret throw observe call
                              MAX_VARIANT_ANALYSIS_EXPORT_PROGRESS_STEPS].
    rewrite Htok, Hdir. cbv beta iota zeta. rewrite <- List.app_assoc. reflexivity.
  - intros Hdir Hbefore Hfail.
    cbv beta iota zeta delta [exportToLocalMarkdown throwIfCancelled progress bind emit
                              ret throw observe call
                              MAX_VARIANT_ANALYSIS_EXPORT_PROGRESS_STEPS].
    rewrite Htok, Hdir. cbv beta iota zeta.
    rewrite (writeMarkdownFiles_failure env dir before f later e _ Hbefore Hfail).
    repeat rewrite <- List.app_assoc. reflexivity.
Qed.

End WithTypes.

Import ExtraFixtures.

(** The write of the second of three files fails: the third is not
    attempted. *)
Lemma local_export_stops_at_first_failure_witness :
  exportToLocalMarkdown
    (custom None never succeeds (writesExcept "/out/b.md") (Return None) Fixtures.renderAll)
    "/out" ([file "a" "1"] ++ file "b" "2" :: [file "c" "3"])
    (Some {| isCancellationRequested := never |}) []
  = (Throw (OtherError "EACCES"),
     [ Progress 2 2 "Creating local Markdown files"; EnsureDir "/out";
       WriteFile "/out/a.md" "1" "utf8"; WriteFile "/out/b.md" "2" "utf8" ])
  /\
  exportToLocalMarkdown
    (custom None never (fun _ => Throw (OtherError "EROFS")) writes (Return None)
            Fixtures.renderAll)
    "/out" ([file "a" "1"] ++ file "b" "2" :: [file "c" "3"])
    (Some {| isCancellationRequested := never |}) []
  = (Throw (OtherError "EROFS"),
     [ Progress 2 2 "Creating local Markdown files"; EnsureDir "/out" ]).
Proof.
  split.
  - refine (proj2 (local_export_stops_at_first_failure
              (custom None never succeeds (writesExcept "/out/b.md") (Return None)
                      Fixtures.renderAll)
              "/out" [file "a" "1"] [file "c" "3"] (file "b" "2") (OtherError "EACCES") []
              eq_refl) eq_refl _ eq_refl).
    intros g Hg. apply list_elem_of_singleton in Hg. subst g. reflexivity.
  - exact (proj1 (local_export_stops_at_first_failure
              (custom None never (fun _ => Throw (OtherError "EROFS")) writes (Return None)
                      Fixtures.renderAll)
              "/out" [file "a" "1"] [file "c" "3"] (file "b" "2") (OtherError "EROFS") []
              eq_refl) eq_refl).
Defined.

End LocalFailureFacts.

(** ** The lazy sequence: failures and exhaustion *)

Module SequenceFailureFacts.
Import Effects SharedTypes ExportResults Traces SequenceFacts.

Section WithTypes.
Context {ScannedRepositoryResult FailureReason : Type}.
Implicit Types (mgr : @VariantAnalysisManager ScannedRepositoryResult FailureReason).

(** X9.  When the results of a repository cannot be loaded, the
    sequence throws at that repository: a consumer that asks for more
    items than precede it has received nothing, the loads made are those
    of the repositories before it and its own, one each, and the
    repositories after it are never loaded. *)
Theorem sequence_stops_at_failed_load mgr
    (variantAnalysis : VariantAnalysis FailureReason)
    (repositories : option (list VariantAnalysisScannedRepository))
    (res : VariantAnalysisScannedRepository -> ScannedRepositoryResult)
    (before : list VariantAnalysisScannedRepository) :
  forall (repo : VariantAnalysisScannedRepository)
         (later : list VariantAnalysisScannedRepository) (e : Thrown)
         (k : nat) (h : list Event),
  (forall r, r ∈ before ->
     loadResults mgr (va_id variantAnalysis) (fullName (repository r)) true
     = Return (res r)) ->
  loadResults mgr (va_id variantAnalysis) (fullName (repository repo)) true = Throw e ->
  (length before < k)%nat ->
  take_items (getAnalysesResults mgr variantAnalysis repositories) k
             (before ++ repo :: later) h
  = (Throw e, h ++ map (loadOf variantAnalysis) (before ++ [repo])).
Proof.
  induction before as [|r before IH]; intros repo later e k h Hbefore Hfail Hk.
  - destruct k as [|k]; [inversion Hk|].
    cbn [app take_items]. unfold bind at 1.
    rewrite next_loads_one, Hfail. reflexivity.
  - destruct k as [|k]; [inversion Hk|].
    cbn [app take_items]. unfold bind at 1.
    rewrite next_loads_one, (Hbefore r ltac:(left)).
    unfold bind at 1.
    rewrite (IH repo later e k _ (fun r' Hr' => Hbefore r' ltac:(right; exact Hr')) Hfail)
      by (cbn [length] in Hk; lia).
    cbn [map app]. rewrite <- List.app_assoc. reflexivity.
Qed.

(** X10.  When every load succeeds, a consumer that drains the sequence
    receives exactly one pair per selected repository, in the order of
    the selection, however many more items it asks for: the number of
    pairs is the expected count that the export hands to the renderer
    ([repositories?.length ?? 0]), and an undefined selection yields
    nothing and loads nothing. *)
Theorem drained_sequence_has_expected_count mgr
    (variantAnalysis : VariantAnalysis FailureReason)
    (repositories : option (list VariantAnalysisScannedRepository))
    (res : VariantAnalysisScannedRepository -> ScannedRepositoryResult)
    (k : nat) (h : list Event) :
  let results := getAnalysesResults mgr variantAnalysis repositories in
  let selected := match repositories with Some repos => repos | None => [] end in
  let expected := match repositories with Some repos => length repos | None => 0%nat end in
  (forall r, r ∈ selected ->
     loadResults mgr (va_id variantAnalysis) (fullName (repository r)) true
     = Return (res r)) ->
  (expected <= k)%nat ->
  take_items results k (iter_start results) h
  = (Return (map (fun r => (r, res r)) selected),
     h ++ map (loadOf variantAnalysis) selected)
  /\ length (map (fun r => (r, res r)) selected) = expected
  /\ length (map (loadOf variantAnalysis) selected) = expected.
Proof.
  intros results selected expected Hload Hk.
  assert (Hlen : length selected = expected).
  { unfold selected, expected. destruct repositories; reflexivity. }
  split; [|split; rewrite length_map; exact Hlen].
  change (iter_start results) with selected.
  pose proof (take_items_run mgr variantAnalysis repositories res k selected h) as Hrun.
  rewrite take_ge in Hrun by lia.
  apply Hrun. exact Hload.
Qed.

End WithTypes.

Import ExtraFixtures.

Lemma sequence_stops_at_failed_load_witness :
  take_items
    (getAnalysesResults (managerMissing "octo/d") Fixtures.job None) 3
    ([Fixtures.repo 1 "octo/a" (Some 3)] ++ Fixtures.repo 4 "octo/d" (Some 1)
       :: [Fixtures.repo 5 "octo/e" (Some 2)]) []
  = (Throw (OtherError "Missing results"),
     [LoadResults 7 "octo/a" true; LoadResults 7 "octo/d" true]).
Proof.
  apply (sequence_stops_at_failed_load (managerMissing "octo/d") Fixtures.job None
           (fun r => ["results of " +:+ fullName (repository r)])
           [Fixtures.repo 1 "octo/a" (Some 3)] (Fixtures.repo 4 "octo/d" (Some 1))
           [Fixtures.repo 5 "octo/e" (Some 2)] (OtherError "Missing results") 3 []).
  - intros r Hr. apply list_elem_of_singleton in Hr. subst r. reflexivity.
  - reflexivity.
  - simpl. lia.
Defined.

Lemma drained_sequence_has_expected_count_witness :
  take_items
    (getAnalysesResults Fixtures.manager Fixtures.job
       (Some [Fixtures.repo 1 "octo/a" (Some 3); Fixtures.repo 4 "octo/d" (Some 1)])) 5
    [Fixtures.repo 1 "octo/a" (Some 3); Fixtures.repo 4 "octo/d" (Some 1)] []
  = (Return [ (Fixtures.repo 1 "octo/a" (Some 3), ["results of octo/a"]);
              (Fixtures.repo 4 "octo/d" (Some 1), ["results of octo/d"]) ],
     [LoadResults 7 "octo/a" true; LoadResults 7 "octo/d" true]).
Proof.
  apply (drained_sequence_has_expected_count Fixtures.manager Fixtures.job
           (Some [Fixtures.repo 1 "octo/a" (Some 3); Fixtures.repo 4 "octo/d" (Some 1)])
           (fun r => ["results of " +:+ fullName (repository r)]) 5 []).
  - intros r _. reflexivity.
  - simpl. lia.
Defined.

End SequenceFailureFacts.

(** ** The timestamp: which exports share a directory *)

Module TimestampNameFacts.
Import JsDate TimestampFacts.

Lemma app_same_length_inj (a1 a2 b1 b2 : string) :
  String.length a1 = String.length a2 ->
  a1 +:+ b1 = a2 +:+ b2 -> a1 = a2 /\ b1 = b2.
Proof.
  revert a2. induction a1 as [|x a1 IH]; intros [|y a2] Hlen Heq;
    try discriminate Hlen.
  - split; [reflexivity|exact Heq].
  - rewrite !app_String in Heq. injection Heq as -> Heq.
    cbn [String.length] in Hlen. injection Hlen as Hlen.
    destruct (IH a2 Hlen Heq) as [-> ->]. split; reflexivity.
Qed.

Lemma digits_inj (w : nat) :
  forall n m : N,
    n < 10 ^ N.of_nat w -> m < 10 ^ N.of_nat w ->
    Wording.digits w n = Wording.digits w m -> n = m.
Proof.
  induction w as [|w IH]; intros n m Hn Hm Heq.
  - simpl in Hn, Hm. lia.
  - cbn [Wording.digits] in Heq.
    apply app_same_length_inj in Heq as [Hhigh Hlow];
      [|rewrite !digits_length; reflexivity].
    injection Hlow as Hlow.
    apply pretty_N_char_inj in Hlow; [|apply N.mod_lt; lia|apply N.mod_lt; lia].
    rewrite Nat2N.inj_succ, N.pow_succ_r' in Hn, Hm.
    apply IH in Hhigh; [|apply N.Div0.div_lt_upper_bound; exact Hn
                        |apply N.Div0.div_lt_upper_bound; exact Hm].
    rewrite (N.div_mod' n 10), (N.div_mod' m 10), Hhigh, Hlow. reflexivity.
Qed.

(** X11.  The name of the destination directory tells two valid export
    times apart exactly down to the second: the formatted dates are
    equal when, and only when, the two times agree on year, month, day,
    hours, minutes and seconds; the milliseconds play no part, so two
    exports within the same second get the same directory name. *)
Theorem formattedDate_precision (d1 d2 : Date) :
  Wording.validDate d1 -> Wording.validDate d2 ->
  (ExportResults.formattedDate d1 = ExportResults.formattedDate d2
   <-> year d1 = year d2 /\ month d1 = month d2 /\ day d1 = day d2 /\
       hours d1 = hours d2 /\ minutes d1 = minutes d2 /\ seconds d1 = seconds d2).
Proof.
  intros Hv1 Hv2.
  rewrite (formattedDate_compact d1 Hv1), (formattedDate_compact d2 Hv2).
  destruct Hv1 as (Hy1 & Hmo1 & Hd1 & Hh1 & Hmi1 & Hs1 & _).
  destruct Hv2 as (Hy2 & Hmo2 & Hd2 & Hh2 & Hmi2 & Hs2 & _).
  unfold Wording.compactTimestamp. split.
  - intros Heq.
    apply app_same_length_inj in Heq as [Hy Heq]; [|rewrite !digits_length; reflexivity].
    apply app_same_length_inj in Heq as [Hmo Heq]; [|rewrite !digits_length; reflexivity].
    apply app_same_length_inj in Heq as [Hd Heq]; [|rewrite !digits_length; reflexivity].
    apply app_same_length_inj in Heq as [_ Heq]; [|reflexivity].
    apply app_same_length_inj in Heq as [Hh Heq]; [|rewrite !digits_length; reflexivity].
    apply app_same_length_inj in Heq as [Hmi Heq]; [|rewrite !digits_length; reflexivity].
    apply app_same_length_inj in Heq as [Hs _]; [|rewrite !digits_length; reflexivity].
    apply digits_inj in Hy; [|cbn; lia|cbn; lia].
    apply digits_inj in Hmo; [|cbn; lia|cbn; lia].
    apply digits_inj in Hd; [|cbn; lia|cbn; lia].
    apply digits_inj in Hh; [|cbn; lia|cbn; lia].
    apply digits_inj in Hmi; [|cbn; lia|cbn; lia].
    apply digits_inj in Hs; [|cbn; lia|cbn; lia].
    repeat split; try assumption. lia.
  - intros (-> & -> & -> & -> & -> & ->). reflexivity.
Qed.

(** Two times of the same second, half a second apart. *)
Lemma formattedDate_precision_witness :
  ExportResults.formattedDate Fixtures.date20221115
  = ExportResults.formattedDate
      {| year := 2022; month := 11; day := 15; hours := 12; minutes := 34;
         seconds := 56; milliseconds := 289 |}.
Proof.
  apply (formattedDate_precision Fixtures.date20221115
           {| year := 2022; month := 11; day := 15; hours := 12; minutes := 34;
              seconds := 56; milliseconds := 289 |}).
  - unfold Wording.validDate. simpl. lia.
  - unfold Wording.validDate. simpl. lia.
  - repeat split; reflexivity.
Defined.

End TimestampNameFacts.

(** ** Commands that run commands *)

Module NestedCommandFacts.
Import Effects Commands Traces CommandsFacts.

(** X12.  A task that awaits another registered command gets [undefined]
    when that command's task throws, and goes on: the error is reported
    once, by the inner command, and when the rest of the outer task
    returns, the outer command returns its value and sends a usage
    record without an error. *)
Theorem inner_error_is_reported_once {A B}
    (hp : Helpers) (host : Host) (innerId outerId : string)
    (inner : M A) (rest : option A -> M B)
    (e : Thrown) (v : B) (h0 h1 h2 : list Event) :
  inner h0 = (Throw e, h1) ->
  let reported :=
    h1 ++ reportOf hp innerId e ::
          usageOf host innerId h0 (h1 ++ [reportOf hp innerId e]) (Some (asError hp e)) in
  rest None reported = (Return v, h2) ->
  registerCommandWithErrorHandling hp host outerId
    (bind (registerCommandWithErrorHandling hp host innerId inner) rest) h0
  = (Return (Some v), h2 ++ usageOf host outerId h0 h2 None).
Proof.
  intros Hinner reported Hrest.
  apply command_returns.
  unfold bind. rewrite (command_throws hp host innerId inner h0 h1 e Hinner).
  exact Hrest.
Qed.

Lemma inner_error_is_reported_once_witness :
  registerCommandWithErrorHandling Fixtures.helpers Fixtures.host "outer"
    (bind (registerCommandWithErrorHandling Fixtures.helpers Fixtures.host "inner"
             (throw (A := unit) (OtherError "boom")))
          (fun r => bind (emit (Log "after"))
                         (fun _ => ret (match r with Some _ => 1 | None => 0 end)%nat))) []
  = (Return (Some 0%nat),
     [ ShowAndLogExceptionWithTelemetry "boom (inner)" "boom (inner)" "inner";
       SendCommandUsage "inner" 1 (Some (OtherError "boom"));
       Log "after";
       SendCommandUsage "outer" 3 None ]).
Proof.
  apply (inner_error_is_reported_once Fixtures.helpers Fixtures.host "inner" "outer"
           (throw (A := unit) (OtherError "boom"))
           (fun r => bind (emit (Log "after"))
                         (fun _ => ret (match r with Some _ => 1 | None => 0 end)%nat))
           (OtherError "boom") 0%nat [] []
           [ ShowAndLogExceptionWithTelemetry "boom (inner)" "boom (inner)" "inner";
             SendCommandUsage "inner" 1 (Some (OtherError "boom"));
             Log "after" ]);
    reflexivity.
Defined.

End NestedCommandFacts.

(** ** The tables of the query languages *)

Module QueryLanguageFacts.
Import QueryLanguageTables.

Lemma objectOf_from {V} (entries : list (string * V)) :
  forall (acc : gmap string V) (key : string) (v : V),
    fold_left (fun acc kv => <[ fst kv := snd kv ]> acc) entries acc !! key = Some v ->
    (key, v) ∈ entries \/ acc !! key = Some v.
Proof.
  induction entries as [|[k w] entries IH]; intros acc key v Hlookup.
  - right. exact Hlookup.
  - cbn [fold_left fst snd] in Hlookup.
    destruct (IH _ _ _ Hlookup) as [Hin|Hacc].
    + left. right. exact Hin.
    + destruct (decide (k = key)) as [->|Hne].
      * rewrite lookup_insert_eq in Hacc. injection Hacc as ->. left. left.
      * rewrite lookup_insert_ne in Hacc by exact Hne. right. exact Hacc.
Qed.

Lemma objectOf_lookup_Some {V} (entries : list (string * V)) (key : string) (v : V) :
  objectOf entries !! key = Some v -> (key, v) ∈ entries.
Proof.
  intros Hlookup. destruct (objectOf_from entries ∅ key v Hlookup) as [Hin|Hempty].
  - exact Hin.
  - rewrite lookup_empty in Hempty. discriminate Hempty.
Qed.

Lemma NoDup_snd_unique {A B} (l : list (A * B)) (a1 a2 : A) (b : B) :
  NoDup (map snd l) -> (a1, b) ∈ l -> (a2, b) ∈ l -> a1 = a2.
Proof.
  induction l as [|[a b'] l IH]; intros Hnd H1 H2; [inversion H1|].
  cbn [map snd] in Hnd. apply NoDup_cons in Hnd as [Hnot Hnd].
  apply elem_of_cons in H1 as [H1|H1]; apply elem_of_cons in H2 as [H2|H2].
  - congruence.
  - injection H1 as -> ->. exfalso. apply Hnot.
    apply list_elem_of_fmap. exists (a2, b'). split; [reflexivity|exact H2].
  - injection H2 as -> ->. exfalso. apply Hnot.
    apply list_elem_of_fmap. exists (a1, b'). split; [reflexivity|exact H1].
  - exact (IH Hnd H1 H2).
Qed.

Lemma value_inj (l1 l2 : QueryLanguage.t) :
  QueryLanguage.value l1 = QueryLanguage.value l2 -> l1 = l2.
Proof. destruct l1, l2; intros H; try reflexivity; discriminate H. Qed.

(** X13.  [PACKS_BY_QUERY_LANGUAGE] has an entry for every query language
    except Swift, for which the lookup is undefined; every entry is keyed
    by the value of a language, and its first pack is the standard query
    pack of that language, [codeql/<language>-queries]. *)
Theorem packs_cover_all_languages_but_swift :
  (forall l : QueryLanguage.t,
     PACKS_BY_QUERY_LANGUAGE !! QueryLanguage.value l = None <-> l = QueryLanguage.Swift)
  /\ (forall (key : string) (packs : list string),
        PACKS_BY_QUERY_LANGUAGE !! key = Some packs ->
        exists l, key = QueryLanguage.value l /\
                  head packs = Some ("codeql/" +:+ QueryLanguage.value l +:+ "-queries")).
Proof.
  split.
  - intros l. destruct l; vm_compute; split; intros H; try reflexivity; discriminate H.
  - intros key packs Hlookup.
    apply objectOf_lookup_Some in Hlookup.
    unfold PACKS_BY_QUERY_LANGUAGE_entries in Hlookup.
    do 7 (apply elem_of_cons in Hlookup as [Heq|Hlookup];
          [injection Heq as -> ->;
           first [ exists QueryLanguage.Cpp; split; reflexivity
                 | exists QueryLanguage.CSharp; split; reflexivity
                 | exists QueryLanguage.Go; split; reflexivity
                 | exists QueryLanguage.Java; split; reflexivity
                 | exists QueryLanguage.Javascript; split; reflexivity
                 | exists QueryLanguage.Python; split; reflexivity
                 | exists QueryLanguage.Ruby; split; reflexivity ]|]).
    inversion Hlookup.
Qed.

(** X14.  [dbSchemeToLanguage] maps every database scheme it knows to
    the value of a query language, and every query language is the
    language of exactly one scheme. *)
Theorem dbSchemeToLanguage_is_one_to_one :
  (forall scheme lang : string,
     dbSchemeToLanguage !! scheme = Some lang ->
     exists l, QueryLanguage.value l = lang)
  /\ (forall l : QueryLanguage.t,
        exists scheme,
          dbSchemeToLanguage !! scheme = Some (QueryLanguage.value l) /\
          forall scheme',
            dbSchemeToLanguage !! scheme' = Some (QueryLanguage.value l) ->
            scheme' = scheme).
Proof.
  split.
  - intros scheme lang Hlookup.
    apply objectOf_lookup_Some in Hlookup.
    unfold dbSchemeToLanguage_entries in Hlookup.
    do 8 (apply elem_of_cons in Hlookup as [Heq|Hlookup];
          [injection Heq as -> ->;
           first [ exists QueryLanguage.Javascript; reflexivity
                 | exists QueryLanguage.Cpp; reflexivity
                 | exists QueryLanguage.Java; reflexivity
                 | exists QueryLanguage.Python; reflexivity
                 | exists QueryLanguage.CSharp; reflexivity
                 | exists QueryLanguage.Go; reflexivity
                 | exists QueryLanguage.Ruby; reflexivity
                 | exists QueryLanguage.Swift; reflexivity ]|]).
    inversion Hlookup.
  - intros l.
    assert (Hunique : forall scheme scheme',
              (scheme, QueryLanguage.value l) ∈ dbSchemeToLanguage_entries ->
              (scheme', QueryLanguage.value l) ∈ dbSchemeToLanguage_entries ->
              scheme' = scheme).
    { intros scheme scheme' H1 H2.
      apply (NoDup_snd_unique dbSchemeToLanguage_entries scheme' scheme
               (QueryLanguage.value l)); [|exact H2|exact H1].
      refine (bool_decide_unpack (NoDup (map snd dbSchemeToLanguage_entries)) _).
      vm_compute. exact I. }
    assert (Hex : exists scheme,
              dbSchemeToLanguage !! scheme = Some (QueryLanguage.value l)).
    { destruct l;
        [ exists "semmlecode.csharp.dbscheme" | exists "semmlecode.cpp.dbscheme"
        | exists "go.dbscheme" | exists "semmlecode.dbscheme"
        | exists "semmlecode.javascript.dbscheme" | exists "semmlecode.python.dbscheme"
        | exists "ruby.dbscheme" | exists "swift.dbscheme" ];
        vm_compute; reflexivity. }
    destruct Hex as [scheme Hscheme]. exists scheme. split; [exact Hscheme|].
    intros scheme' Hscheme'.
    apply Hunique; apply objectOf_lookup_Some; assumption.
Qed.

End QueryLanguageFacts.

(** ** The monitor loop: polls and the order of the downloads *)

Module MonitorLoopFacts.
Import SharedTypes Monitor MonitorTraces MonitorFacts.

Section WithTypes.
Context {RawFailureReason FailureReason : Type}.
Implicit Types (p : @Processor RawFailureReason FailureReason).
Implicit Types (env : @Env RawFailureReason).
Implicit Types (job : VariantAnalysis FailureReason).
Implicit Types (evs : list (@MonitorEvent RawFailureReason FailureReason)).

Lemma fetches_app evs1 evs2 : fetches (evs1 ++ evs2) = (fetches evs1 + fetches evs2)%nat.
Proof. unfold fetches. rewrite List.filter_app, length_app. reflexivity. Qed.

Lemma fetches_dispatch p job (d : list ApiScannedRepository) :
  fetches (dispatch p job d) = 0%nat.
Proof.
  unfold dispatch, fetches.
  induction (List.filter isSucceeded d) as [|r l IH]; [reflexivity|exact IH].
Qed.

Lemma changeEvents_app evs1 evs2 :
  changeEvents (evs1 ++ evs2) = changeEvents evs1 ++ changeEvents evs2.
Proof. unfold changeEvents. apply omap_app. Qed.

Lemma changeEvents_dispatch p job (d : list ApiScannedRepository) :
  changeEvents (dispatch p job d) = [].
Proof.
  unfold dispatch, changeEvents.
  induction (List.filter isSucceeded d) as [|r l IH]; [reflexivity|exact IH].
Qed.

Lemma fetches_bounded p env (attempts : nat) :
  forall (poll : nat) job (reported : gset N),
    (fetches (fst (monitorFrom p env attempts poll job reported)) <= attempts)%nat.
Proof.
  induction attempts as [|attempts IH]; intros poll job reported; [reflexivity|].
  cbn [monitorFrom].
  destruct (shouldCancelMonitor env (va_id job) poll); [cbn; lia|].
  destruct (getVariantAnalysis env (va_id job) poll) as [snapshot|]; [|cbn; lia].
  destruct (isFailure (api_status snapshot)); [cbn; lia|].
  specialize (IH (S poll) (processUpdatedVariantAnalysis p job snapshot)
                 (snd (delta reported (scanned_repositories snapshot)))).
  destruct (delta reported (scanned_repositories snapshot)) as [d reported'].
  cbn [snd] in IH.
  destruct (isFinal (api_status snapshot)).
  - cbn [fst].
    change (Fetched snapshot :: ?l) with ([Fetched snapshot] ++ l).
    rewrite !fetches_app, fetches_dispatch. cbn. lia.
  - destruct (monitorFrom p env attempts (S poll) _ reported') as [later c].
    cbn [fst] in *.
    change (Fetched snapshot :: ?l) with ([Fetched snapshot] ++ l).
    change (Sleep (sleepTime env) :: later) with ([Sleep (sleepTime env)] ++ later).
    rewrite !fetches_app, fetches_dispatch. cbn. lia.
Qed.

Lemma steady_polls p env (attempts : nat) :
  (forall i poll, shouldCancelMonitor env i poll = false) ->
  (forall i poll, exists snapshot,
      getVariantAnalysis env i poll = Some snapshot /\ api_status snapshot = in_progress) ->
  forall (poll : nat) job (reported : gset N),
    let run := monitorFrom p env attempts poll job reported in
    fetches (fst run) = attempts /\ length (changeEvents (fst run)) = attempts /\
    snd run = Resolved.
Proof.
  intros Hcancel Hfetch.
  induction attempts as [|attempts IH]; intros poll job reported; [repeat split|].
  cbn [monitorFrom]. rewrite Hcancel.
  destruct (Hfetch (va_id job) poll) as (snapshot & -> & Hstatus).
  unfold isFailure, isFinal. rewrite Hstatus. cbn [bool_decide decide_rel negb].
  rewrite !bool_decide_eq_false_2 by discriminate.
  rewrite bool_decide_eq_true_2 by reflexivity. cbn [negb].
  specialize (IH (S poll) (processUpdatedVariantAnalysis p job snapshot)
                 (snd (delta reported (scanned_repositories snapshot)))).
  destruct (delta reported (scanned_repositories snapshot)) as [d reported'].
  cbn [snd] in IH.
  destruct (monitorFrom p env attempts (S poll) _ reported') as [later c].
  cbn [fst snd] in *. destruct IH as (IHf & IHc & IHr).
  change (Fetched snapshot :: ?l) with ([Fetched snapshot] ++ l).
  change (Sleep (sleepTime env) :: later) with ([Sleep (sleepTime env)] ++ later).
  rewrite !fetches_app, !changeEvents_app, fetches_dispatch, changeEvents_dispatch,
    !length_app.
  cbn. rewrite IHf, IHc. split; [lia|split; [lia|exact IHr]].
Qed.

(** X15.  (The monitor is modelled from the specification; its test
    sets the ceiling to three and expects four fetches.)  A run never
    fetches more than [maxAttemptCount + 1] snapshots.  When the monitor
    is never cancelled and every fetch answers a snapshot that is still
    in progress, it fetches exactly that many, emits one change event
    per fetch, and then stops silently. *)
Theorem polls_are_bounded p env job :
  (forall i poll, shouldCancelMonitor env i poll = false) ->
  (forall i poll, exists snapshot,
      getVariantAnalysis env i poll = Some snapshot /\ api_status snapshot = in_progress) ->
  (forall (p' : @Processor RawFailureReason FailureReason) (env' : @Env RawFailureReason)
          (job' : VariantAnalysis FailureReason),
      (fetches (fst (monitorVariantAnalysis p' env' job')) <= S (maxAttemptCount env'))%nat)
  /\ fetches (fst (monitorVariantAnalysis p env job)) = S (maxAttemptCount env)
  /\ length (changeEvents (fst (monitorVariantAnalysis p env job))) = S (maxAttemptCount env)
  /\ snd (monitorVariantAnalysis p env job) = Resolved.
Proof.
  intros Hcancel Hfetch. split.
  - intros p' env' job'. apply fetches_bounded.
  - apply (steady_polls p env (S (maxAttemptCount env)) Hcancel Hfetch 0%nat job ∅).
Qed.

Lemma triggeredRepos_app evs1 evs2 :
  triggeredRepos (evs1 ++ evs2) = triggeredRepos evs1 ++ triggeredRepos evs2.
Proof. unfold triggeredRepos, downloadTriggers. rewrite omap_app, map_app. reflexivity. Qed.

Lemma triggeredRepos_dispatch p job (d : list ApiScannedRepository) :
  triggeredRepos (dispatch p job d)
  = map (processScannedRepository p) (List.filter isSucceeded d).
Proof.
  unfold dispatch, triggeredRepos, downloadTriggers.
  induction (List.filter isSucceeded d) as [|r l IH]; [reflexivity|].
  cbn. f_equal. exact IH.
Qed.

Lemma triggers_are_delta p env (attempts : nat) :
  forall (poll : nat) job (reported : gset N),
    let evs := fst (monitorFrom p env attempts poll job reported) in
    triggeredRepos evs
    = map (processScannedRepository p)
          (List.filter isSucceeded (fst (delta reported (diffedEntries evs)))).
Proof.
  induction attempts as [|attempts IH]; intros poll job reported; [reflexivity|].
  cbn [monitorFrom].
  destruct (shouldCancelMonitor env (va_id job) poll); [reflexivity|].
  destruct (getVariantAnalysis env (va_id job) poll) as [snapshot|]; [|reflexivity].
  destruct (isFailure (api_status snapshot)) eqn:Hfail.
  { cbn [fst]. unfold diffedEntries, observedSnapshots. cbn. rewrite Hfail. reflexivity. }
  specialize (IH (S poll) (processUpdatedVariantAnalysis p job snapshot)
                 (snd (delta reported (scanned_repositories snapshot)))).
  destruct (delta reported (scanned_repositories snapshot)) as [d reported'] eqn:Hdelta.
  cbn [snd] in IH.
  assert (Hentries :
    forall later,
      diffedEntries (Fetched snapshot
                     :: dispatch p (processUpdatedVariantAnalysis p job snapshot) d
                     ++ [Change (processUpdatedVariantAnalysis p job snapshot)] ++ later)
      = scanned_repositories snapshot ++ diffedEntries later).
  { intros later.
    change (Fetched snapshot :: ?l) with ([Fetched snapshot] ++ l).
    rewrite !diffedEntries_app, diffedEntries_dispatch.
    unfold diffedEntries at 1, observedSnapshots. cbn. rewrite Hfail. cbn.
    rewrite app_nil_r. reflexivity. }
  assert (Htriggers :
    forall later,
      triggeredRepos (Fetched snapshot
                      :: dispatch p (processUpdatedVariantAnalysis p job snapshot) d
                      ++ [Change (processUpdatedVariantAnalysis p job snapshot)] ++ later)
      = map (processScannedRepository p) (List.filter isSucceeded d)
        ++ triggeredRepos later).
  { intros later.
    change (Fetched snapshot :: ?l) with ([Fetched snapshot] ++ l).
    rewrite !triggeredRepos_app, triggeredRepos_dispatch. reflexivity. }
  destruct (isFinal (api_status snapshot)).
  - cbn [fst]. specialize (Hentries []). specialize (Htriggers []).
    rewrite app_nil_r in Hentries, Htriggers. rewrite Hentries, Htriggers.
    change (diffedEntries []) with (@nil ApiScannedRepository).
    change (triggeredRepos []) with (@nil VariantAnalysisScannedRepository).
    rewrite !app_nil_r, Hdelta. reflexivity.
  - destruct (monitorFrom p env attempts (S poll) _ reported') as [later c].
    cbn [fst] in *.
    cbn [app]. rewrite <- List.app_assoc.
    rewrite (Hentries (Sleep (sleepTime env) :: later)),
            (Htriggers (Sleep (sleepTime env) :: later)).
    change (Sleep (sleepTime env) :: later) with ([Sleep (sleepTime env)] ++ later).
    rewrite triggeredRepos_app, diffedEntries_app.
    change (triggeredRepos [Sleep (sleepTime env)])
      with (@nil VariantAnalysisScannedRepository).
    change (diffedEntries [Sleep (sleepTime env)]) with (@nil ApiScannedRepository).
    cbn [app]. rewrite IH, DifferFacts.delta_app, Hdelta. cbn [fst snd].
    rewrite List.filter_app, map_app. reflexivity.
Qed.

Lemma delta_sublist (repos : list ApiScannedRepository) :
  forall reported : gset N, sublist (fst (delta reported repos)) repos.
Proof.
  induction repos as [|r repos IH]; intros reported; [constructor|].
  cbn [delta].
  destruct (isTerminalRepoStatus (analysis_status r) && bool_decide (repoId r ∉ reported)).
  - specialize (IH ({[repoId r]} ∪ reported)).
    destruct (delta ({[repoId r]} ∪ reported) repos) as [d reported'].
    apply sublist_skip. exact IH.
  - apply sublist_cons. apply IH.
Qed.

Lemma filter_sublist_mono {A} (f : A -> bool) (l1 l2 : list A) :
  sublist l1 l2 -> sublist (List.filter f l1) (List.filter f l2).
Proof.
  induction 1 as [|x l1 l2 _ IH|x l1 l2 _ IH]; cbn [List.filter].
  - constructor.
  - destruct (f x); [apply sublist_skip|]; exact IH.
  - destruct (f x); [apply sublist_cons|]; exact IH.
Qed.

(** X16.  (The monitor is modelled from the specification; its test
    expects no download command when no repository has succeeded.)
    Over a whole run, the repositories handed to the download triggers
    are processed Succeeded entries of the diffed snapshots, in the
    order in which they appear in the sequence of snapshots: there are
    never more triggers than Succeeded entries, and none when no entry
    is Succeeded. *)
Theorem triggers_follow_the_snapshots p env job :
  let evs := fst (monitorVariantAnalysis p env job) in
  sublist (triggeredRepos evs)
          (map (processScannedRepository p) (List.filter isSucceeded (diffedEntries evs)))
  /\ (length (downloadTriggers evs)
      <= length (List.filter isSucceeded (diffedEntries evs)))%nat.
Proof.
  intros evs.
  assert (Hsub : sublist (triggeredRepos evs)
                   (map (processScannedRepository p)
                        (List.filter isSucceeded (diffedEntries evs)))).
  { unfold evs, monitorVariantAnalysis. rewrite triggers_are_delta.
    apply (fmap_sublist (processScannedRepository p)).
    apply filter_sublist_mono, delta_sublist. }
  split; [exact Hsub|].
  apply sublist_length in Hsub.
  unfold triggeredRepos in Hsub. rewrite !length_map in Hsub. exact Hsub.
Qed.

End WithTypes.

Import MonitorFixtures.

(** The run of the test with only in-progress repositories. *)
Lemma polls_are_bounded_witness :
  let run :=
    monitorVariantAnalysis processor
      (steadyEnv (response in_progress
                    (createMockScannedRepos 1 [repo_pending; repo_in_progress])) 3) job in
  fetches (fst run) = 4%nat /\ length (changeEvents (fst run)) = 4%nat /\
  snd run = Resolved.
Proof.
  apply (polls_are_bounded processor
           (steadyEnv (response in_progress
                         (createMockScannedRepos 1 [repo_pending; repo_in_progress])) 3)
           job).
  - intros i poll. reflexivity.
  - intros i poll. eexists. split; reflexivity.
Defined.

Example no_download_without_success :
  downloadTriggers
    (fst (monitorVariantAnalysis processor
            (steadyEnv (response in_progress
                          (createMockScannedRepos 1 [repo_pending; repo_in_progress])) 3)
            job))
  = []
  /\ downloadTriggers
       (fst (monitorVariantAnalysis processor (steadyEnv (response succeeded []) 3) job))
     = [].
Proof. split; reflexivity. Qed.

End MonitorLoopFacts.

(** ** Further facts on the description, the selection and the summary file *)

Module ExportEdgeFacts.
Import Effects SharedTypes ExportResults Traces ExportTraces.

Lemma totalResultCount_Permutation
    (s1 s2 : list MarkdownGeneration.RepositorySummary) :
  Permutation s1 s2 -> Wording.totalResultCount s1 = Wording.totalResultCount s2.
Proof.
  induction 1 as [|x l1 l2 _ IH|x y l|l1 l2 l3 _ IH1 _ IH2]; cbn [Wording.totalResultCount].
  - reflexivity.
  - rewrite IH. reflexivity.
  - lia.
  - congruence.
Qed.

(** X17.  The description does not depend on the order of the
    summaries: it is the same for any rearrangement of them. *)
Theorem description_ignores_order {FailureReason : Type}
    (variantAnalysis : VariantAnalysis FailureReason)
    (s1 s2 : list MarkdownGeneration.RepositorySummary) :
  Permutation s1 s2 ->
  buildVariantAnalysisGistDescription variantAnalysis s1
  = buildVariantAnalysisGistDescription variantAnalysis s2.
Proof.
  intros Hperm. unfold buildVariantAnalysisGistDescription.
  rewrite !DescriptionFacts.fold_left_resultCount.
  rewrite (totalResultCount_Permutation s1 s2 Hperm).
  rewrite (Permutation_length Hperm). reflexivity.
Qed.

Lemma description_ignores_order_witness :
  buildVariantAnalysisGistDescription Fixtures.job
    [ {| MarkdownGeneration.summaryFileName := "a"; MarkdownGeneration.resultCount := Some 3 |};
      {| MarkdownGeneration.summaryFileName := "b"; MarkdownGeneration.resultCount := None |} ]
  = buildVariantAnalysisGistDescription Fixtures.job
    [ {| MarkdownGeneration.summaryFileName := "b"; MarkdownGeneration.resultCount := None |};
      {| MarkdownGeneration.summaryFileName := "a"; MarkdownGeneration.resultCount := Some 3 |} ].
Proof.
  apply (description_ignores_order Fixtures.job). apply perm_swap.
Defined.

Lemma find_app_some {A} (p : A -> bool) (l1 l2 : list A) (x : A) :
  List.find p l1 = Some x -> List.find p (l1 ++ l2) = Some x.
Proof.
  induction l1 as [|y l1 IH]; [discriminate|].
  cbn [app List.find]. destruct (p y); [trivial|exact IH].
Qed.

(** X18.  The edge cases of the selection predicate: a repository
    without a recorded state is not selected, nor is one whose result
    count is undefined or zero, whatever its state; and when several
    states are recorded for a repository only the first counts, so that
    states added after it do not change whether it is selected. *)
Theorem selection_edge_cases
    (repoStates later : list VariantAnalysisScannedRepositoryState)
    (repo : VariantAnalysisScannedRepository) :
  ((forall r, r ∈ repoStates -> repositoryId r <> id (repository repo)) ->
   hasDownloadedResults repoStates repo = false)
  /\ (resultCount repo = None \/ resultCount repo = Some 0 ->
      hasDownloadedResults repoStates repo = false)
  /\ ((exists r, r ∈ repoStates /\ repositoryId r = id (repository repo)) ->
      hasDownloadedResults (repoStates ++ later) repo
      = hasDownloadedResults repoStates repo).
Proof.
  unfold hasDownloadedResults. split; [|split].
  - intros Hnone.
    destruct (List.find _ repoStates) as [r|] eqn:Hfind; [|apply andb_false_r].
    apply find_some in Hfind as [Hin Heq]. apply N.eqb_eq in Heq.
    exfalso. apply (Hnone r); [apply list_elem_of_In; exact Hin|exact Heq].
  - intros [-> | ->]; reflexivity.
  - intros (r & Hin & Hid).
    destruct (List.find (fun r0 => repositoryId r0 =? id (repository repo)) repoStates)
      as [r'|] eqn:Hfind.
    + rewrite (find_app_some _ _ later _ Hfind). reflexivity.
    + exfalso. apply list_elem_of_In in Hin.
      pose proof (find_none _ _ Hfind r Hin) as Hno. cbv beta in Hno.
      apply N.eqb_neq in Hno. contradiction.
Qed.

Section WithTypes.
Context {ScannedRepositoryResult Credentials FailureReason : Type}.
Implicit Types (env : @Env ScannedRepositoryResult Credentials FailureReason).

(** X19.  The button of the message shown after a local export opens
    the file at the path where the export wrote the rendered file named
    [_summary], shows it, and reveals it in the file manager; when the
    user does not press the button, nothing is called. *)
Theorem open_exported_results_opens_the_summary env (dir : string)
    (f : MarkdownGeneration.MarkdownFile) (content encoding path : string)
    (h : list Event) :
  MarkdownGeneration.fileName f = "_summary" ->
  writeOf env dir f = WriteFile path content encoding ->
  openExportedResults env dir true h
  = (Return tt,
     h ++ [OpenTextDocument path; ShowTextDocument path;
           ExecuteCommand "revealFileInOS" path])
  /\ openExportedResults env dir false h = (Return tt, h).
Proof.
  intros Hname Hwrite. unfold writeOf in Hwrite. rewrite Hname in Hwrite.
  injection Hwrite as Hpath _ _.
  change ("_summary" +:+ ".md") with "_summary.md" in Hpath.
  split; [|reflexivity].
  unfold openExportedResults, bind, emit. rewrite Hpath.
  repeat rewrite <- List.app_assoc. reflexivity.
Qed.

End WithTypes.

Lemma selection_edge_cases_witness :
  hasDownloadedResults
    ([ {| repositoryId := 1; downloadStatus := DownloadFailed |} ]
     ++ [ {| repositoryId := 1; downloadStatus := DownloadSucceeded |} ])
    (Fixtures.repo 1 "octo/a" (Some 3))
  = hasDownloadedResults [ {| repositoryId := 1; downloadStatus := DownloadFailed |} ]
      (Fixtures.repo 1 "octo/a" (Some 3)).
Proof.
  apply (selection_edge_cases [ {| repositoryId := 1; downloadStatus := DownloadFailed |} ]
           [ {| repositoryId := 1; downloadStatus := DownloadSucceeded |} ]
           (Fixtures.repo 1 "octo/a" (Some 3))).
  eexists. split; [left|reflexivity].
Defined.

Lemma open_exported_results_opens_the_summary_witness :
  openExportedResults (Fixtures.env None) "/out" true []
  = (Return tt,
     [ OpenTextDocument "/out/_summary.md"; ShowTextDocument "/out/_summary.md";
       ExecuteCommand "revealFileInOS" "/out/_summary.md" ]).
Proof.
  apply (open_exported_results_opens_the_summary (Fixtures.env None) "/out"
           (ExtraFixtures.file "_summary" "# Summary") "# Summary" "utf8"
           "/out/_summary.md" []);
    reflexivity.
Defined.

End ExportEdgeFacts.
